(** * gforms/forms_tools.py: the question request builder

    A shallow embedding of [_build_question_requests], the helper of
    [create_form] that turns the simplified question dictionaries into the
    request objects of the Forms batch update.

    Python values are dynamically typed, so they are embedded as one
    inductive type [pyval].  A dict is an association list: Python dicts
    keep insertion order, the code iterates whatever [options] is bound
    to, and the requests are nested dict literals whose shape is easier
    to read as lists.  Lookup returns the first binding of a key; a
    Python dict has each key once.  A [str] is a Rocq string, one [ascii]
    per character.  A float is carried as its 64 bits: the builder only
    copies it and prints it.  The elements of [questions] are dicts with
    string keys, as the annotation [List[Dict[str, Any]]] says.

    The function can raise (iterating a non-iterable, calling [.get] on
    a non-dict) and it writes warnings to the module logger, so it is
    embedded in a small monad with the log as state and the exception as
    result. *)

From Stdlib Require Import List String Ascii ZArith Lia Bool Arith.
From Stdlib Require Import Decimal DecimalString.
Import ListNotations.
Open Scope string_scope.
Open Scope list_scope.

(** ** Python values *)

#[warnings="-register-all"]
Inductive pyval : Type :=
| PyNone
| PyBool (b : bool)
| PyInt (z : Z)
| PyFloat (bits : N)
| PyStr (s : string)
| PyList (l : list pyval)
| PyDict (d : list (string * pyval)).

Definition pydict : Type := list (string * pyval).

Inductive pyexn : Type :=
| TypeError
| AttributeError
| KeyError.

Inductive result (A : Type) : Type :=
| Ok (a : A)
| Raise (e : pyexn).

Arguments Ok {A} a.
Arguments Raise {A} e.

(** ** The monad: log of the module logger as state, exception as result *)

Definition M (A : Type) : Type := list string -> result A * list string.

Definition ret {A} (a : A) : M A := fun log => (Ok a, log).

Definition bind {A B} (m : M A) (k : A -> M B) : M B :=
  fun log =>
    match m log with
    | (Ok a, log') => k a log'
    | (Raise e, log') => (Raise e, log')
    end.

Definition lift {A} (r : result A) : M A := fun log => (r, log).

(** [logger.warning(msg)] *)
Definition warning (msg : string) : M unit := fun log => (Ok tt, log ++ [msg]).

Notation "x <- m ;; k" := (bind m (fun x => k))
  (at level 61, m at next level, right associativity).
Notation "m ;;; k" := (bind m (fun _ => k))
  (at level 61, right associativity).

(** ** Dict operations *)

(** The binding of [k], if any. *)
Fixpoint dict_lookup (k : string) (d : pydict) : option pyval :=
  match d with
  | [] => None
  | (k', v) :: rest => if String.eqb k' k then Some v else dict_lookup k rest
  end.

(** [d.get(k, default)]; [d.get(k)] is [dict_get d k PyNone]. *)
Definition dict_get (d : pydict) (k : string) (default : pyval) : pyval :=
  match dict_lookup k d with
  | Some v => v
  | None => default
  end.

(** [d[k] = v]: replaces the binding in place, or adds it at the end. *)
Fixpoint dict_setitem (k : string) (v : pyval) (d : pydict) : pydict :=
  match d with
  | [] => [(k, v)]
  | (k', v') :: rest =>
      if String.eqb k' k then (k, v) :: rest else (k', v') :: dict_setitem k v rest
  end.

(** [x[k]] on any value. *)
Definition py_getitem (x : pyval) (k : string) : result pyval :=
  match x with
  | PyDict d =>
      match dict_lookup k d with
      | Some v => Ok v
      | None => Raise KeyError
      end
  | _ => Raise TypeError
  end.

(** [x.get(k)] on any value: only a dict has the method. *)
Definition py_get (x : pyval) (k : string) : result pyval :=
  match x with
  | PyDict d => Ok (dict_get d k PyNone)
  | _ => Raise AttributeError
  end.

(** [x == s] for a string literal [s]. *)
Definition py_eq_str (x : pyval) (s : string) : bool :=
  match x with
  | PyStr t => String.eqb t s
  | _ => false
  end.

(** [for opt in x]: the elements of a list, the characters of a str, the
    keys of a dict; the other values are not iterable. *)
Definition py_iter (x : pyval) : result (list pyval) :=
  match x with
  | PyList l => Ok l
  | PyStr s => Ok (map (fun c => PyStr (String c EmptyString)) (list_ascii_of_string s))
  | PyDict d => Ok (map (fun kv => PyStr (fst kv)) d)
  | PyNone | PyBool _ | PyInt _ | PyFloat _ => Raise TypeError
  end.

(** [str(z)] for an int: the decimal digits, with a minus sign for a
    negative number. *)
Definition int_str (z : Z) : string := NilEmpty.string_of_int (Z.to_int z).

Section Builder.

(** [str] of a float, a list or a dict is Python's [repr] of the value,
    a builtin outside this module; what is proved of the builder holds
    for any such function. *)
Variable py_repr : pyval -> string.

(** [str(x)] *)
Definition py_str (x : pyval) : string :=
  match x with
  | PyNone => "None"
  | PyBool true => "True"
  | PyBool false => "False"
  | PyInt z => int_str z
  | PyStr s => s
  | PyFloat _ | PyList _ | PyDict _ => py_repr x
  end.

(** ** The builder *)

(** [item["questionItem"]["question"][k] = v] *)
Definition set_question (item : pydict) (k : string) (v : pyval) : result pydict :=
  match py_getitem (PyDict item) "questionItem" with
  | Raise e => Raise e
  | Ok (PyDict question_item) =>
      match py_getitem (PyDict question_item) "question" with
      | Raise e => Raise e
      | Ok (PyDict question) =>
          Ok (dict_setitem "questionItem"
                (PyDict (dict_setitem "question"
                           (PyDict (dict_setitem k v question)) question_item))
                item)
      | Ok _ => Raise TypeError
      end
  | Ok _ => Raise TypeError
  end.

(** [[{"value": opt} for opt in options]] *)
Definition wrap_options (options : pyval) : result pyval :=
  match py_iter options with
  | Ok l => Ok (PyList (map (fun opt => PyDict [("value", opt)]) l))
  | Raise e => Raise e
  end.

(** The body of the [for i, q in enumerate(questions)] loop; [requests]
    is the list built so far, and the value is the list after this
    round. *)
Definition loop_body (i : nat) (q : pydict) (requests : list pyval) : M (list pyval) :=
  let question_type := dict_get q "type" PyNone in
  let question_title := dict_get q "title" PyNone in
  let question_description := dict_get q "description" PyNone in
  let question_required := dict_get q "required" (PyBool false) in
  let item :=
    [("title", question_title);
     ("description", question_description);
     ("questionItem",
       PyDict [("question", PyDict [("required", question_required)])])] in
  let append (item : pydict) : M (list pyval) :=
    ret (requests ++
         [PyDict [("createItem",
                    PyDict [("item", PyDict item);
                            ("location", PyDict [("index", PyInt (Z.of_nat i))])])]]) in
  if py_eq_str question_type "TEXT_QUESTION" then
    item <- lift (set_question item "textQuestion" (PyDict [])) ;;
    append item
  else if py_eq_str question_type "MULTIPLE_CHOICE_QUESTION" then
    let options := dict_get q "options" (PyList []) in
    wrapped <- lift (wrap_options options) ;;
    item <- lift (set_question item "choiceQuestion"
                    (PyDict [("type", PyStr "RADIO"); ("options", wrapped)])) ;;
    append item
  else if py_eq_str question_type "SCALE_QUESTION" then
    let scale_min := dict_get q "scale_min" PyNone in
    let scale_max := dict_get q "scale_max" PyNone in
    let scale_labels := dict_get q "scale_labels" (PyDict []) in
    low_label <- lift (py_get scale_labels (py_str scale_min)) ;;
    high_label <- lift (py_get scale_labels (py_str scale_max)) ;;
    item <- lift (set_question item "scaleQuestion"
                    (PyDict [("low", scale_min);
                             ("high", scale_max);
                             ("lowLabel", low_label);
                             ("highLabel", high_label)])) ;;
    append item
  else if py_eq_str question_type "CHECKBOX_QUESTION" then
    let options := dict_get q "options" (PyList []) in
    wrapped <- lift (wrap_options options) ;;
    item <- lift (set_question item "choiceQuestion"
                    (PyDict [("type", PyStr "CHECKBOX"); ("options", wrapped)])) ;;
    append item
  else if py_eq_str question_type "DATE_QUESTION" then
    let include_time := dict_get q "include_time" (PyBool false) in
    let include_year := dict_get q "include_year" (PyBool true) in
    item <- lift (set_question item "dateQuestion"
                    (PyDict [("includeTime", include_time);
                             ("includeYear", include_year)])) ;;
    append item
  else if py_eq_str question_type "TIME_QUESTION" then
    item <- lift (set_question item "timeQuestion" (PyDict [])) ;;
    append item
  else
    warning ("Unsupported question type: " ++ py_str question_type
             ++ ". Skipping question: " ++ py_str question_title)%string ;;;
    ret requests.

(** The loop from index [i] on. *)
Fixpoint build_loop (i : nat) (questions : list pydict) (requests : list pyval)
  : M (list pyval) :=
  match questions with
  | [] => ret requests
  | q :: rest =>
      requests' <- loop_body i q requests ;;
      build_loop (S i) rest requests'
  end.

Definition _build_question_requests (questions : list pydict) : M (list pyval) :=
  build_loop 0 questions [].

End Builder.

(** ** The tools around the builder

    [create_form], [get_form], [set_publish_settings] and
    [list_form_responses] are embedded without their decorators, which
    are defined outside this module.  Each talks to the remote service
    through [execute]; what the service answers is not this module's
    business, so the service is a function from the calls made so far and
    the present call to a reply.  [get_form_response] is left out: its
    text is not a Python function (line 339 has an unmatched
    parenthesis). *)

(** [bool(x)] *)
Definition py_truthy (x : pyval) : bool :=
  match x with
  | PyNone => false
  | PyBool b => b
  | PyInt z => negb (Z.eqb z 0)
  | PyFloat bits => negb (N.eqb bits 0 || N.eqb bits (2 ^ 63))
  | PyStr s => negb (String.eqb s EmptyString)
  | PyList l => match l with [] => false | _ :: _ => true end
  | PyDict d => match d with [] => false | _ :: _ => true end
  end.

(** [len(x)] *)
Definition py_len (x : pyval) : result nat :=
  match x with
  | PyList l => Ok (List.length l)
  | PyStr s => Ok (String.length s)
  | PyDict d => Ok (List.length d)
  | PyNone | PyBool _ | PyInt _ | PyFloat _ => Raise TypeError
  end.

(** [x.get(k, default)] on any value. *)
Definition py_get_default (x : pyval) (k : string) (default : pyval) : result pyval :=
  match x with
  | PyDict d => Ok (dict_get d k default)
  | _ => Raise AttributeError
  end.

(** An optional str argument, as a value. *)
Definition py_optional (s : option string) : pyval :=
  match s with
  | Some s => PyStr s
  | None => PyNone
  end.

(** The newline and the double quote of the message templates. *)
Definition newline : string := String (ascii_of_nat 10) EmptyString.
Definition dquote : string := String (ascii_of_nat 34) EmptyString.

(** [str(n)] for a length or a counter. *)
Definition nat_str (n : nat) : string := int_str (Z.of_nat n).

(** The calls of the Forms service the tools make. *)
Inductive api_call : Type :=
| FormsCreate (body : pyval)
| FormsBatchUpdate (formId : pyval) (body : pyval)
| FormsGet (formId : pyval)
| FormsSetPublishSettings (formId : pyval) (body : pyval)
| ResponsesList (params : pydict).

(** What [execute] gives: the parsed reply, an [HttpError] with its
    text, or another exception. *)
Inductive api_reply : Type :=
| Reply (v : pyval)
| HttpFailure (message : string)
| OtherFailure (name : string).

Inductive tool_exn : Type :=
| Builtin (e : pyexn)
| HttpError (message : string)
| OtherError (name : string).

Inductive outcome (A : Type) : Type :=
| Done (a : A)
| Fail (e : tool_exn).

Arguments Done {A} a.
Arguments Fail {A} e.

(** The state a tool runs in: the records of the module logger and the
    calls made to the service, both in order. *)
Record world : Type := World { logged : list string; calls : list api_call }.

Definition T (A : Type) : Type := world -> outcome A * world.

Definition tret {A} (a : A) : T A := fun w => (Done a, w).

Definition tbind {A B} (m : T A) (k : A -> T B) : T B :=
  fun w =>
    match m w with
    | (Done a, w') => k a w'
    | (Fail e, w') => (Fail e, w')
    end.

Notation "x <~ m ;; k" := (tbind m (fun x => k))
  (at level 61, m at next level, right associativity).
Notation "m ;;~ k" := (tbind m (fun _ => k))
  (at level 61, right associativity).

Definition lift_result {A} (r : result A) : T A :=
  fun w =>
    match r with
    | Ok a => (Done a, w)
    | Raise e => (Fail (Builtin e), w)
    end.

(** A computation of the builder's monad, run on the log of the world. *)
Definition lift_builder {A} (m : M A) : T A :=
  fun w =>
    match m (logged w) with
    | (Ok a, log) => (Done a, World log (calls w))
    | (Raise e, log) => (Fail (Builtin e), World log (calls w))
    end.

(** [logger.info(msg)] and [logger.error(msg)] *)
Definition log_message (msg : string) : T unit :=
  fun w => (Done tt, World (logged w ++ [msg]) (calls w)).

(** [try: body except HttpError as e: handler] *)
Definition except_http {A} (body : T A) (handler : string -> T A) : T A :=
  fun w =>
    match body w with
    | (Fail (HttpError message), w') => handler message w'
    | other => other
    end.

Section Tools.

Variable py_repr : pyval -> string.
Variable service : list api_call -> api_call -> api_reply.

Local Abbreviation fmt := (py_str py_repr).

(** [await asyncio.to_thread(request.execute)] *)
Definition execute (c : api_call) : T pyval :=
  fun w =>
    let w' := World (logged w) (calls w ++ [c]) in
    match service (calls w) c with
    | Reply v => (Done v, w')
    | HttpFailure message => (Fail (HttpError message), w')
    | OtherFailure name => (Fail (OtherError name), w')
    end.

(** [info[k] = s] when the optional argument [s] is true. *)
Definition set_if_given (k : string) (s : option string) (info : pydict) : pydict :=
  if py_truthy (py_optional s) then dict_setitem k (py_optional s) info else info.

(** The confirmation text of [create_form]. *)
Definition confirmation_message (created_form : pyval) (title user_google_email : string)
  (form_id : pyval) (edit_url : string) (responder_url : pyval) : T string :=
  form_info <~ lift_result (py_get_default created_form "info" (PyDict [])) ;;
  shown_title <~ lift_result (py_get_default form_info "title" (PyStr title)) ;;
  tret ("Successfully created form '" ++ fmt shown_title ++ "' for "
        ++ user_google_email ++ ". Form ID: " ++ fmt form_id
        ++ ". Edit URL: " ++ edit_url
        ++ ". Responder URL: " ++ fmt responder_url)%string.

Definition create_form (user_google_email title : string)
  (description document_title : option string)
  (questions : option (list pydict)) : T string :=
  log_message ("[create_form] Invoked. Email: '" ++ user_google_email
               ++ "', Title: " ++ title)%string ;;~
  let form_body :=
    PyDict
      [("info",
         PyDict (set_if_given "documentTitle" document_title
                   (set_if_given "description" description
                      [("title", PyStr title)])))] in
  created_form <~ execute (FormsCreate form_body) ;;
  form_id <~ lift_result (py_get created_form "formId") ;;
  let edit_url := ("https://docs.google.com/forms/d/" ++ fmt form_id ++ "/edit")%string in
  responder_url <~
    lift_result
      (py_get_default created_form "responderUri"
         (PyStr ("https://docs.google.com/forms/d/" ++ fmt form_id ++ "/viewform")%string)) ;;
  let confirmation :=
    confirmation_message created_form title user_google_email form_id edit_url
      responder_url in
  let finish : T string :=
    confirmation_message <~ confirmation ;;
    log_message ("Form created successfully for " ++ user_google_email
                 ++ ". ID: " ++ fmt form_id)%string ;;~
    tret confirmation_message in
  match questions with
  | Some (q :: rest) =>
      log_message ("Adding " ++ nat_str (List.length (q :: rest))
                   ++ " questions to form " ++ fmt form_id ++ ".")%string ;;~
      question_requests <~ lift_builder (_build_question_requests py_repr (q :: rest)) ;;
      let batch_update_body := PyDict [("requests", PyList question_requests)] in
      returned <~
        except_http
          (execute (FormsBatchUpdate form_id batch_update_body) ;;~
           log_message ("Successfully added questions to form "
                        ++ fmt form_id ++ ".")%string ;;~
           tret None)
          (fun e =>
             log_message ("Failed to add questions to form " ++ fmt form_id
                          ++ ": " ++ e)%string ;;~
             confirmation_message <~ confirmation ;;
             tret (Some (confirmation_message
                         ++ ". WARNING: Failed to add questions due to an error: "
                         ++ e)%string)) ;;
      match returned with
      | Some confirmation_message => tret confirmation_message
      | None => finish
      end
  | Some [] | None => finish
  end.

(** The loop of [get_form] over [enumerate(items, 1)], from counter [i]
    on. *)
Fixpoint summarize_items (i : nat) (items : list pyval) (questions_summary : list string)
  : T (list string) :=
  match items with
  | [] => tret questions_summary
  | item :: rest =>
      item_title <~
        lift_result (py_get_default item "title" (PyStr ("Question " ++ nat_str i)%string)) ;;
      question_item <~ lift_result (py_get_default item "questionItem" (PyDict [])) ;;
      question <~ lift_result (py_get_default question_item "question" (PyDict [])) ;;
      item_type <~ lift_result (py_get_default question "required" (PyBool false)) ;;
      let required_text := if py_truthy item_type then " (Required)" else EmptyString in
      summarize_items (S i) rest
        (questions_summary
         ++ [("  " ++ nat_str i ++ ". " ++ fmt item_title ++ required_text)%string])
  end.

Definition get_form (user_google_email form_id : string) : T string :=
  log_message ("[get_form] Invoked. Email: '" ++ user_google_email
               ++ "', Form ID: " ++ form_id)%string ;;~
  form <~ execute (FormsGet (PyStr form_id)) ;;
  form_info <~ lift_result (py_get_default form "info" (PyDict [])) ;;
  title <~ lift_result (py_get_default form_info "title" (PyStr "No Title")) ;;
  description <~
    lift_result (py_get_default form_info "description" (PyStr "No Description")) ;;
  document_title <~ lift_result (py_get_default form_info "documentTitle" title) ;;
  let edit_url := ("https://docs.google.com/forms/d/" ++ form_id ++ "/edit")%string in
  responder_url <~
    lift_result
      (py_get_default form "responderUri"
         (PyStr ("https://docs.google.com/forms/d/" ++ form_id ++ "/viewform")%string)) ;;
  items <~ lift_result (py_get_default form "items" (PyList [])) ;;
  elements <~ lift_result (py_iter items) ;;
  questions_summary <~ summarize_items 1 elements [] ;;
  let questions_text :=
    match questions_summary with
    | [] => "  No questions found"
    | _ :: _ => String.concat newline questions_summary
    end in
  total <~ lift_result (py_len items) ;;
  let result :=
    ("Form Details for " ++ user_google_email ++ ":" ++ newline
     ++ "- Title: " ++ dquote ++ fmt title ++ dquote ++ newline
     ++ "- Description: " ++ dquote ++ fmt description ++ dquote ++ newline
     ++ "- Document Title: " ++ dquote ++ fmt document_title ++ dquote ++ newline
     ++ "- Form ID: " ++ form_id ++ newline
     ++ "- Edit URL: " ++ edit_url ++ newline
     ++ "- Responder URL: " ++ fmt responder_url ++ newline
     ++ "- Questions (" ++ nat_str total ++ " total):" ++ newline
     ++ questions_text)%string in
  log_message ("Successfully retrieved form for " ++ user_google_email
               ++ ". ID: " ++ form_id)%string ;;~
  tret result.

Definition set_publish_settings (user_google_email form_id : string)
  (publish_as_template require_authentication : bool) : T string :=
  log_message ("[set_publish_settings] Invoked. Email: '" ++ user_google_email
               ++ "', Form ID: " ++ form_id)%string ;;~
  let settings_body :=
    PyDict [("publishAsTemplate", PyBool publish_as_template);
            ("requireAuthentication", PyBool require_authentication)] in
  execute (FormsSetPublishSettings (PyStr form_id) settings_body) ;;~
  let confirmation_message :=
    ("Successfully updated publish settings for form " ++ form_id ++ " for "
     ++ user_google_email ++ ". Publish as template: "
     ++ fmt (PyBool publish_as_template) ++ ", Require authentication: "
     ++ fmt (PyBool require_authentication))%string in
  log_message ("Publish settings updated successfully for " ++ user_google_email
               ++ ". Form ID: " ++ form_id)%string ;;~
  tret confirmation_message.

(** The loop of [list_form_responses] over [enumerate(responses, 1)],
    from counter [i] on. *)
Fixpoint detail_responses (i : nat) (responses : list pyval) (response_details : list string)
  : T (list string) :=
  match responses with
  | [] => tret response_details
  | response :: rest =>
      response_id <~ lift_result (py_get_default response "responseId" (PyStr "Unknown")) ;;
      create_time <~ lift_result (py_get_default response "createTime" (PyStr "Unknown")) ;;
      last_submitted_time <~
        lift_result (py_get_default response "lastSubmittedTime" (PyStr "Unknown")) ;;
      answers <~ lift_result (py_get_default response "answers" (PyDict [])) ;;
      answers_count <~ lift_result (py_len answers) ;;
      detail_responses (S i) rest
        (response_details
         ++ [("  " ++ nat_str i ++ ". Response ID: " ++ fmt response_id
              ++ " | Created: " ++ fmt create_time
              ++ " | Last Submitted: " ++ fmt last_submitted_time
              ++ " | Answers: " ++ nat_str answers_count)%string])
  end.

Definition list_form_responses (user_google_email form_id : string)
  (page_size : Z) (page_token : option string) : T string :=
  log_message ("[list_form_responses] Invoked. Email: '" ++ user_google_email
               ++ "', Form ID: " ++ form_id)%string ;;~
  let params :=
    set_if_given "pageToken" page_token
      [("formId", PyStr form_id); ("pageSize", PyInt page_size)] in
  responses_result <~ execute (ResponsesList params) ;;
  responses <~ lift_result (py_get_default responses_result "responses" (PyList [])) ;;
  next_page_token <~ lift_result (py_get responses_result "nextPageToken") ;;
  if negb (py_truthy responses) then
    tret ("No responses found for form " ++ form_id ++ " for "
          ++ user_google_email ++ ".")%string
  else
    elements <~ lift_result (py_iter responses) ;;
    response_details <~ detail_responses 1 elements [] ;;
    let pagination_info :=
      if py_truthy next_page_token
      then (newline ++ "Next page token: " ++ fmt next_page_token)%string
      else (newline ++ "No more pages.")%string in
    returned <~ lift_result (py_len responses) ;;
    let result :=
      ("Form Responses for " ++ user_google_email ++ ":" ++ newline
       ++ "- Form ID: " ++ form_id ++ newline
       ++ "- Total responses returned: " ++ nat_str returned ++ newline
       ++ "- Responses:" ++ newline
       ++ String.concat newline response_details ++ pagination_info)%string in
    log_message ("Successfully retrieved " ++ nat_str returned ++ " responses for "
                 ++ user_google_email ++ ". Form ID: " ++ form_id)%string ;;~
    tret result.

End Tools.

(** ** Vocabulary of the specification *)

(** The six question kinds of the data model and their tags. *)
Inductive kind : Type :=
| TEXT
| MULTIPLE_CHOICE
| SCALE
| CHECKBOX
| DATE
| TIME.

Definition kind_tag (k : kind) : string :=
  match k with
  | TEXT => "TEXT_QUESTION"
  | MULTIPLE_CHOICE => "MULTIPLE_CHOICE_QUESTION"
  | SCALE => "SCALE_QUESTION"
  | CHECKBOX => "CHECKBOX_QUESTION"
  | DATE => "DATE_QUESTION"
  | TIME => "TIME_QUESTION"
  end.

Definition all_kinds : list kind :=
  [TEXT; MULTIPLE_CHOICE; SCALE; CHECKBOX; DATE; TIME].

(** The descriptor's [type] field is the tag of [k]. *)
Definition has_kind (q : pydict) (k : kind) : Prop :=
  dict_get q "type" PyNone = PyStr (kind_tag k).

(** The descriptor's kind is one of the six. *)
Definition recognized (q : pydict) : bool :=
  existsb (fun k => py_eq_str (dict_get q "type" PyNone) (kind_tag k)) all_kinds.

(** The descriptor at input index [i] exists and has a recognized kind. *)
Definition recognized_at (questions : list pydict) (i : nat) : bool :=
  match nth_error questions i with
  | Some q => recognized q
  | None => false
  end.

(** The choice list variant of the two kinds that carry options. *)
Definition choice_variant (k : kind) : option string :=
  match k with
  | MULTIPLE_CHOICE => Some "RADIO"
  | CHECKBOX => Some "CHECKBOX"
  | _ => None
  end.

Definition iterable (x : pyval) : bool :=
  match x with
  | PyList _ | PyStr _ | PyDict _ => true
  | PyNone | PyBool _ | PyInt _ | PyFloat _ => false
  end.

Definition is_dict (x : pyval) : bool :=
  match x with
  | PyDict _ => true
  | _ => false
  end.

(** The field [k] is missing or bound to a value of the given shape. *)
Definition field_has (q : pydict) (k : string) (shape : pyval -> bool) : bool :=
  match dict_lookup k q with
  | Some v => shape v
  | None => true
  end.

(** A descriptor record: a kind-specific field that is present has a
    shape the data model allows, a sequence for [options] of a choice or
    checkbox question and a mapping for [scale_labels] of a scale
    question.  Every field may be missing, and nothing is asked of the
    other fields. *)
Definition descriptor_record (q : pydict) : bool :=
  let question_type := dict_get q "type" PyNone in
  if py_eq_str question_type "MULTIPLE_CHOICE_QUESTION"
     || py_eq_str question_type "CHECKBOX_QUESTION"
  then field_has q "options" iterable
  else if py_eq_str question_type "SCALE_QUESTION"
  then field_has q "scale_labels" is_dict
  else true.

(** The value under a path of keys in nested dicts. *)
Fixpoint py_path (x : pyval) (path : list string) : option pyval :=
  match path with
  | [] => Some x
  | k :: path' =>
      match x with
      | PyDict d =>
          match dict_lookup k d with
          | Some v => py_path v path'
          | None => None
          end
      | _ => None
      end
  end.

(** [request["createItem"]["location"]["index"]] *)
Definition location_index (request : pyval) : option pyval :=
  py_path request ["createItem"; "location"; "index"].

(** [request["createItem"]["item"][k]] *)
Definition item_field (request : pyval) (k : string) : option pyval :=
  py_path request ["createItem"; "item"; k].

(** [request["createItem"]["item"]["questionItem"]["question"][k]] *)
Definition question_field (request : pyval) (k : string) : option pyval :=
  py_path request ["createItem"; "item"; "questionItem"; "question"; k].

(** The position [i] as the builder writes it. *)
Definition position (i : nat) : option pyval := Some (PyInt (Z.of_nat i)).

(** The request is placed at index [i]. *)
Definition at_index (i : nat) (request : pyval) : bool :=
  match location_index request with
  | Some (PyInt z) => Z.eqb z (Z.of_nat i)
  | _ => false
  end.

(** [{"value": opt}] *)
Definition option_entry (opt : pyval) : pyval := PyDict [("value", opt)].

(** Every key of the dict is [str] of an integer, as the labels of a
    scale keyed by its real bounds are. *)
Definition keyed_by_integers (d : pydict) : Prop :=
  forall k, In k (map fst d) -> exists z : Z, k = int_str z.

(** The request of one round as a dict literal: the base item of the
    descriptor with the kind's entry [k: payload] added to its question. *)
Definition request_literal (i : nat) (q : pydict) (k : string) (payload : pyval) : pyval :=
  PyDict
    [("createItem",
       PyDict
         [("item",
            PyDict
              [("title", dict_get q "title" PyNone);
               ("description", dict_get q "description" PyNone);
               ("questionItem",
                 PyDict
                   [("question",
                      PyDict [("required", dict_get q "required" (PyBool false));
                              (k, payload)])])]);
          ("location", PyDict [("index", PyInt (Z.of_nat i))])])].

(** The key under which the dispatch stores the payload of kind [k]. *)
Definition payload_key (k : kind) : string :=
  match k with
  | TEXT => "textQuestion"
  | MULTIPLE_CHOICE | CHECKBOX => "choiceQuestion"
  | SCALE => "scaleQuestion"
  | DATE => "dateQuestion"
  | TIME => "timeQuestion"
  end.

Definition olist {A} (o : option A) : list A :=
  match o with
  | Some a => [a]
  | None => []
  end.

(** *** Sample descriptors *)

Definition text_question : pydict :=
  [("type", PyStr "TEXT_QUESTION"); ("title", PyStr "Name")].

Definition untitled_time_question : pydict :=
  [("type", PyStr "TIME_QUESTION"); ("required", PyBool true)].

Definition unknown_question : pydict :=
  [("type", PyStr "UNKNOWN_KIND"); ("title", PyStr "Skipped")].

Definition checkbox_question : pydict :=
  [("type", PyStr "CHECKBOX_QUESTION"); ("title", PyStr "Toppings");
   ("options", PyList [PyStr "Ham"; PyStr "Egg"; PyStr "Ham"])].

Definition bare_choice_question : pydict :=
  [("type", PyStr "MULTIPLE_CHOICE_QUESTION"); ("title", PyStr "Pick one")].

Definition scale_question : pydict :=
  [("type", PyStr "SCALE_QUESTION"); ("title", PyStr "Rating");
   ("scale_min", PyInt 1); ("scale_max", PyInt 5);
   ("scale_labels", PyDict [("1", PyStr "Low"); ("5", PyStr "High")])].

Definition unbounded_scale_question : pydict :=
  [("type", PyStr "SCALE_QUESTION"); ("title", PyStr "Rating");
   ("scale_labels", PyDict [("1", PyStr "Low"); ("5", PyStr "High")])].

Definition date_question : pydict :=
  [("type", PyStr "DATE_QUESTION"); ("title", PyStr "Birthday")].

Definition mixed_questions : list pydict :=
  [text_question; unknown_question; checkbox_question].

(** A stand-in for [repr], for running the samples: none of them prints
    a float or a container. *)
Definition plain_repr (x : pyval) : string := "<repr>".

(** *** Vocabulary for the rest of the module *)

(** The keys of a descriptor the builder reads. *)
Definition read_keys : list string :=
  ["type"; "title"; "description"; "required"; "options";
   "scale_min"; "scale_max"; "scale_labels"; "include_time"; "include_year"].

(** Two descriptors bind the keys the builder reads alike. *)
Definition same_read_fields (q q' : pydict) : Prop :=
  forall k, In k read_keys -> dict_lookup k q = dict_lookup k q'.

(** The exception a descriptor that is no record makes the builder
    raise. *)
Definition ill_shape_error (q : pydict) : pyexn :=
  if py_eq_str (dict_get q "type" PyNone) "SCALE_QUESTION"
  then AttributeError else TypeError.

(** An item of a form, a response of a page: a dict whose nested fields,
    when present, are dicts (an item) or have a length (a response). *)
Definition form_item (item : pyval) : bool :=
  match item with
  | PyDict d =>
      match dict_lookup "questionItem" d with
      | None => true
      | Some (PyDict question_item) => field_has question_item "question" is_dict
      | Some _ => false
      end
  | _ => false
  end.

Definition has_len (x : pyval) : bool :=
  match x with
  | PyList _ | PyStr _ | PyDict _ => true
  | PyNone | PyBool _ | PyInt _ | PyFloat _ => false
  end.

Definition form_response (response : pyval) : bool :=
  match response with
  | PyDict d => field_has d "answers" has_len
  | _ => false
  end.

(** The [required] flag of an item, as [get_form] reads it. *)
Definition item_required (item : pyval) : pyval :=
  match item with
  | PyDict d =>
      match dict_get d "questionItem" (PyDict []) with
      | PyDict question_item =>
          match dict_get question_item "question" (PyDict []) with
          | PyDict question => dict_get question "required" (PyBool false)
          | _ => PyBool false
          end
      | _ => PyBool false
      end
  | _ => PyBool false
  end.

(** The number of answers of a response, as [list_form_responses] counts
    them. *)
Definition answers_count (response : pyval) : nat :=
  match response with
  | PyDict d =>
      match py_len (dict_get d "answers" (PyDict [])) with
      | Ok n => n
      | Raise _ => 0
      end
  | _ => 0
  end.

(** The field [k] of a reply, with a default. *)
Definition reply_field (x : pyval) (k : string) (default : pyval) : pyval :=
  match x with
  | PyDict d => dict_get d k default
  | _ => default
  end.

(** The body [create_form] sends when it creates the form. *)
Definition create_body (title : string) (description document_title : option string)
  : pyval :=
  PyDict
    [("info",
       PyDict (set_if_given "documentTitle" document_title
                 (set_if_given "description" description [("title", PyStr title)])))].

(** An optional str argument that is given and not empty. *)
Definition given (s : option string) : option pyval :=
  match s with
  | Some d => if String.eqb d EmptyString then None else Some (PyStr d)
  | None => None
  end.

(** The parameters [list_form_responses] passes to the service. *)
Definition list_params (form_id : string) (page_size : Z) (page_token : option string)
  : pydict :=
  set_if_given "pageToken" page_token
    [("formId", PyStr form_id); ("pageSize", PyInt page_size)].

Section ToolVocabulary.

Variable py_repr : pyval -> string.

(** The warning the builder logs for a descriptor it skips. *)
Definition skip_message (q : pydict) : string :=
  ("Unsupported question type: " ++ py_str py_repr (dict_get q "type" PyNone)
   ++ ". Skipping question: " ++ py_str py_repr (dict_get q "title" PyNone))%string.

(** The line of [get_form] for the [i]-th item, counted from 1. *)
Definition question_line (i : nat) (item : pyval) : string :=
  ("  " ++ nat_str i ++ ". "
   ++ py_str py_repr (reply_field item "title" (PyStr ("Question " ++ nat_str i)))
   ++ (if py_truthy (item_required item) then " (Required)" else EmptyString))%string.

(** The lines of the items, the first one numbered [i]. *)
Fixpoint question_lines (i : nat) (items : list pyval) : list string :=
  match items with
  | [] => []
  | item :: rest => question_line i item :: question_lines (S i) rest
  end.

(** The line of [list_form_responses] for the [i]-th response. *)
Definition response_line (i : nat) (response : pyval) : string :=
  ("  " ++ nat_str i
   ++ ". Response ID: " ++ py_str py_repr (reply_field response "responseId" (PyStr "Unknown"))
   ++ " | Created: " ++ py_str py_repr (reply_field response "createTime" (PyStr "Unknown"))
   ++ " | Last Submitted: "
   ++ py_str py_repr (reply_field response "lastSubmittedTime" (PyStr "Unknown"))
   ++ " | Answers: " ++ nat_str (answers_count response))%string.

Fixpoint response_lines (i : nat) (responses : list pyval) : list string :=
  match responses with
  | [] => []
  | response :: rest => response_line i response :: response_lines (S i) rest
  end.

(** The text [create_form] returns when nothing fails. *)
Definition created_text (created_form : pydict) (title user_google_email : string) : string :=
  let form_id := dict_get created_form "formId" PyNone in
  ("Successfully created form '"
   ++ py_str py_repr
        (reply_field (dict_get created_form "info" (PyDict [])) "title" (PyStr title))
   ++ "' for " ++ user_google_email
   ++ ". Form ID: " ++ py_str py_repr form_id
   ++ ". Edit URL: "
   ++ ("https://docs.google.com/forms/d/" ++ py_str py_repr form_id ++ "/edit")
   ++ ". Responder URL: "
   ++ py_str py_repr
        (dict_get created_form "responderUri"
           (PyStr ("https://docs.google.com/forms/d/" ++ py_str py_repr form_id
                   ++ "/viewform"))))%string.

End ToolVocabulary.

(** *** Sample replies of the service *)

Definition created_reply : pydict :=
  [("formId", PyStr "f1"); ("info", PyDict [("title", PyStr "Lunch")]);
   ("responderUri", PyStr "https://forms.example/f1")].

Definition form_reply : pydict :=
  [("info", PyDict [("title", PyStr "Lunch")]);
   ("items",
     PyList
       [PyDict [("title", PyStr "Name");
                ("questionItem",
                  PyDict [("question", PyDict [("required", PyBool true)])])];
        PyDict [("questionItem", PyDict [])]])].

Definition page_reply : pydict :=
  [("responses",
     PyList
       [PyDict [("responseId", PyStr "r1");
                ("answers", PyDict [("q1", PyDict []); ("q2", PyDict [])])];
        PyDict [("createTime", PyStr "2024-01-01")]]);
   ("nextPageToken", PyStr "t2")].

Definition empty_page_reply : pydict :=
  [("responses", PyList []); ("nextPageToken", PyStr "t2")].

(** A service that accepts the form and rejects the batch update, and
    one that answers every call with the same reply. *)
Definition rejecting_service (history : list api_call) (c : api_call) : api_reply :=
  match c with
  | FormsCreate _ => Reply (PyDict created_reply)
  | FormsBatchUpdate _ _ => HttpFailure "<HttpError 400>"
  | _ => OtherFailure "ConnectionError"
  end.

Definition constant_service (reply : api_reply) (history : list api_call) (c : api_call)
  : api_reply := reply.

Definition fresh_world : world := World [] [].

Section Correctness.

Variable py_repr : pyval -> string.

Local Abbreviation build := (_build_question_requests py_repr).

(** The request one round of the loop adds for descriptor [q] at index
    [i], if it adds one. *)
Definition request_of (i : nat) (q : pydict) : option pyval :=
  match fst (loop_body py_repr i q [] []) with
  | Ok [request] => Some request
  | _ => None
  end.

(** The warning one round of the loop logs for descriptor [q]. *)
Definition warning_of (q : pydict) : list string :=
  if recognized q then []
  else ["Unsupported question type: " ++ py_str py_repr (dict_get q "type" PyNone)
        ++ ". Skipping question: " ++ py_str py_repr (dict_get q "title" PyNone)]%string.

Fixpoint requests_from (i : nat) (questions : list pydict) : list pyval :=
  match questions with
  | [] => []
  | q :: rest => olist (request_of i q) ++ requests_from (S i) rest
  end.

Fixpoint warnings_from (questions : list pydict) : list string :=
  match questions with
  | [] => []
  | q :: rest => warning_of q ++ warnings_from rest
  end.

(** The payload the dispatch builds for a descriptor record of kind [k]. *)
Definition payload_of (k : kind) (q : pydict) : pyval :=
  match k with
  | TEXT | TIME => PyDict []
  | MULTIPLE_CHOICE | CHECKBOX =>
      PyDict
        [("type", PyStr (match k with MULTIPLE_CHOICE => "RADIO" | _ => "CHECKBOX" end));
         ("options",
           match py_iter (dict_get q "options" (PyList [])) with
           | Ok l => PyList (map option_entry l)
           | Raise _ => PyNone
           end)]
  | SCALE =>
      let scale_min := dict_get q "scale_min" PyNone in
      let scale_max := dict_get q "scale_max" PyNone in
      let labels :=
        match dict_get q "scale_labels" (PyDict []) with
        | PyDict d => d
        | _ => []
        end in
      PyDict
        [("low", scale_min);
         ("high", scale_max);
         ("lowLabel", dict_get labels (py_str py_repr scale_min) PyNone);
         ("highLabel", dict_get labels (py_str py_repr scale_max) PyNone)]
  | DATE =>
      PyDict
        [("includeTime", dict_get q "include_time" (PyBool false));
         ("includeYear", dict_get q "include_year" (PyBool true))]
  end.

(** ** One round of the loop *)

Ltac split_kind s :=
  destruct (String.eqb_spec s "TEXT_QUESTION") as [-> |];
  [| destruct (String.eqb_spec s "MULTIPLE_CHOICE_QUESTION") as [-> |];
     [| destruct (String.eqb_spec s "SCALE_QUESTION") as [-> |];
        [| destruct (String.eqb_spec s "CHECKBOX_QUESTION") as [-> |];
           [| destruct (String.eqb_spec s "DATE_QUESTION") as [-> |];
              [| destruct (String.eqb_spec s "TIME_QUESTION") as [-> |] ]]]]].

(** With a default of the right shape, a field that is missing or of
    that shape reads as a value of that shape. *)
Lemma field_has_get (q : pydict) (k : string) (shape : pyval -> bool) (default : pyval) :
  shape default = true ->
  field_has q k shape = shape (dict_get q k default).
Proof.
  intros Hd. unfold field_has, dict_get. now destruct (dict_lookup k q).
Qed.

Lemma loop_body_run (i : nat) (q : pydict) (requests : list pyval) (log : list string) :
  descriptor_record q = true ->
  loop_body py_repr i q requests log
  = (Ok (requests ++ olist (request_of i q)), log ++ warning_of q).
Proof.
  unfold descriptor_record, request_of, warning_of, recognized, loop_body.
  cbv zeta.
  destruct (dict_get q "type" PyNone) as [| b | z | f | s | l | d]; simpl;
    try (intros _; unfold bind, warning, ret; simpl; now rewrite app_nil_r).
  split_kind s; simpl; intros Hrec;
    try (unfold bind, lift, ret; simpl; now rewrite app_nil_r).
  - rewrite (field_has_get q "options" iterable (PyList []) eq_refl) in Hrec.
    destruct (dict_get q "options" (PyList [])); try discriminate;
      unfold bind, lift, ret; simpl; now rewrite app_nil_r.
  - rewrite (field_has_get q "scale_labels" is_dict (PyDict []) eq_refl) in Hrec.
    destruct (dict_get q "scale_labels" (PyDict [])); try discriminate;
      unfold bind, lift, ret; simpl; now rewrite app_nil_r.
  - rewrite (field_has_get q "options" iterable (PyList []) eq_refl) in Hrec.
    destruct (dict_get q "options" (PyList [])); try discriminate;
      unfold bind, lift, ret; simpl; now rewrite app_nil_r.
Qed.

(** A descriptor of an unrecognized kind adds no request. *)
Lemma request_of_unrecognized (i : nat) (q : pydict) :
  recognized q = false -> request_of i q = None.
Proof.
  unfold recognized, request_of, loop_body. cbv zeta.
  destruct (dict_get q "type" PyNone) as [| b | z | f | s | l | d]; simpl;
    try reflexivity.
  split_kind s; simpl; try discriminate; reflexivity.
Qed.

(** A descriptor record of kind [k] adds exactly the literal request. *)
Lemma request_of_kind (i : nat) (q : pydict) (k : kind) :
  has_kind q k ->
  descriptor_record q = true ->
  request_of i q = Some (request_literal i q (payload_key k) (payload_of k q)).
Proof.
  unfold has_kind, descriptor_record, request_of, loop_body. cbv zeta.
  intros ->.
  destruct k; simpl; intros Hrec; try reflexivity.
  - rewrite (field_has_get q "options" iterable (PyList []) eq_refl) in Hrec.
    destruct (dict_get q "options" (PyList [])); try discriminate; reflexivity.
  - rewrite (field_has_get q "scale_labels" is_dict (PyDict []) eq_refl) in Hrec.
    destruct (dict_get q "scale_labels" (PyDict [])); try discriminate; reflexivity.
  - rewrite (field_has_get q "options" iterable (PyList []) eq_refl) in Hrec.
    destruct (dict_get q "options" (PyList [])); try discriminate; reflexivity.
Qed.

Lemma recognized_has_kind (q : pydict) :
  recognized q = true <-> exists k, has_kind q k.
Proof.
  unfold recognized, has_kind. split.
  - intros H. apply existsb_exists in H. destruct H as [k [_ Hk]].
    exists k. destruct (dict_get q "type" PyNone); try discriminate.
    simpl in Hk. apply String.eqb_eq in Hk. now subst.
  - intros [k Hk]. apply existsb_exists. exists k. split.
    + destruct k; simpl; tauto.
    + rewrite Hk. simpl. apply String.eqb_refl.
Qed.

(** ** The whole loop *)

Lemma build_loop_run (questions : list pydict) :
  forallb descriptor_record questions = true ->
  forall (i : nat) (requests : list pyval) (log : list string),
    build_loop py_repr i questions requests log
    = (Ok (requests ++ requests_from i questions), log ++ warnings_from questions).
Proof.
  induction questions as [| q rest IH]; simpl; intros Hall i requests log.
  - unfold ret. now rewrite !app_nil_r.
  - apply andb_true_iff in Hall. destruct Hall as [Hq Hrest].
    unfold bind. rewrite (loop_body_run i q requests log Hq).
    rewrite (IH Hrest). now rewrite <- !app_assoc.
Qed.

Lemma build_run (questions : list pydict) (log : list string) :
  forallb descriptor_record questions = true ->
  build questions log
  = (Ok (requests_from 0 questions), log ++ warnings_from questions).
Proof.
  intros Hall. unfold _build_question_requests.
  now rewrite (build_loop_run questions Hall).
Qed.

Lemma request_of_cases (i : nat) (q : pydict) :
  descriptor_record q = true ->
  (recognized q = true /\
   exists k, has_kind q k /\
     request_of i q = Some (request_literal i q (payload_key k) (payload_of k q)))
  \/ (recognized q = false /\ request_of i q = None).
Proof.
  intros Hrec. destruct (recognized q) eqn:Hq.
  - left. split; [reflexivity |].
    apply recognized_has_kind in Hq. destruct Hq as [k Hk].
    exists k. split; [assumption |]. now apply request_of_kind.
  - right. split; [reflexivity |]. now apply request_of_unrecognized.
Qed.

Lemma location_index_literal (i : nat) (q : pydict) (k : string) (payload : pyval) :
  location_index (request_literal i q k payload) = position i.
Proof. reflexivity. Qed.

Lemma at_index_literal (i j : nat) (q : pydict) (k : string) (payload : pyval) :
  at_index j (request_literal i q k payload) = Nat.eqb i j.
Proof.
  unfold at_index. rewrite location_index_literal. unfold position.
  destruct (Nat.eqb_spec i j) as [-> | Hne].
  - apply Z.eqb_refl.
  - apply Z.eqb_neq. lia.
Qed.

Lemma requests_from_length (questions : list pydict) :
  forallb descriptor_record questions = true ->
  forall i, List.length (requests_from i questions) = List.length (filter recognized questions).
Proof.
  induction questions as [| q rest IH]; simpl; intros Hall i; [reflexivity |].
  apply andb_true_iff in Hall. destruct Hall as [Hq Hrest].
  rewrite length_app, (IH Hrest).
  destruct (request_of_cases i q Hq) as [[-> [k [_ ->]]] | [-> ->]]; reflexivity.
Qed.

Lemma recognized_at_tail (q : pydict) (rest : list pydict) (i n : nat) :
  S i <= n -> recognized_at (q :: rest) (n - i) = recognized_at rest (n - S i).
Proof.
  intros Hle. replace (n - i) with (S (n - S i)) by lia. reflexivity.
Qed.

Lemma requests_from_positions (questions : list pydict) :
  forallb descriptor_record questions = true ->
  forall i,
    map location_index (requests_from i questions)
    = map position
        (filter (fun n => recognized_at questions (n - i)) (seq i (List.length questions))).
Proof.
  induction questions as [| q rest IH]; simpl; intros Hall i; [reflexivity |].
  apply andb_true_iff in Hall. destruct Hall as [Hq Hrest].
  rewrite map_app, (IH Hrest), Nat.sub_diag.
  replace (filter (fun n => recognized_at (q :: rest) (n - i)) (seq (S i) (List.length rest)))
    with (filter (fun n => recognized_at rest (n - S i)) (seq (S i) (List.length rest))).
  - unfold recognized_at at 2. simpl.
    destruct (request_of_cases i q Hq) as [[-> [k [_ ->]]] | [-> ->]]; reflexivity.
  - apply filter_ext_in. intros n Hn. apply in_seq in Hn.
    symmetry. apply recognized_at_tail. lia.
Qed.

Lemma request_of_count (i0 i : nat) (q : pydict) :
  descriptor_record q = true ->
  List.length (filter (at_index i) (olist (request_of i0 q)))
  = if (i0 =? i)%nat && recognized q then 1 else 0.
Proof.
  intros Hq.
  destruct (request_of_cases i0 q Hq) as [[-> [k [_ ->]]] | [-> ->]].
  - cbn [olist filter]. rewrite at_index_literal, andb_true_r.
    now destruct (i0 =? i)%nat.
  - now rewrite andb_false_r.
Qed.

Lemma requests_from_count (questions : list pydict) :
  forallb descriptor_record questions = true ->
  forall i0 i,
    List.length (filter (at_index i) (requests_from i0 questions))
    = if (i0 <=? i)%nat && recognized_at questions (i - i0) then 1 else 0.
Proof.
  induction questions as [| q rest IH]; intros Hall i0 i.
  - unfold recognized_at. destruct (i - i0); simpl; now rewrite andb_false_r.
  - cbn [forallb] in Hall. apply andb_true_iff in Hall. destruct Hall as [Hq Hrest].
    cbn [requests_from].
    rewrite filter_app, length_app, (IH Hrest), (request_of_count i0 i q Hq).
    destruct (Nat.eqb_spec i0 i) as [-> | Hne].
    + rewrite Nat.sub_diag, Nat.leb_refl.
      replace (S i <=? i)%nat with false by (symmetry; apply Nat.leb_gt; lia).
      unfold recognized_at at 2. cbn [nth_error andb].
      destruct (recognized q); reflexivity.
    + destruct (Nat.leb_spec i0 i) as [Hle | Hlt].
      * replace (S i0 <=? i)%nat with true by (symmetry; apply Nat.leb_le; lia).
        now rewrite (recognized_at_tail q rest i0 i) by lia.
      * replace (S i0 <=? i)%nat with false by (symmetry; apply Nat.leb_gt; lia).
        reflexivity.
Qed.

(** The request of the descriptor at input index [k] is in the output. *)
Lemma requests_from_in (questions : list pydict) :
  forall i k q request,
    nth_error questions k = Some q ->
    request_of (i + k) q = Some request ->
    In request (requests_from i questions).
Proof.
  induction questions as [| q0 rest IH]; intros i k q request Hnth Hreq.
  - destruct k; discriminate.
  - simpl. apply in_or_app. destruct k as [| k]; simpl in Hnth.
    + injection Hnth as ->. rewrite Nat.add_0_r in Hreq. rewrite Hreq.
      left. now left.
    + right. apply (IH (S i) k q); [assumption |].
      now replace (S i + k) with (i + S k) by lia.
Qed.

(** The [j]-th request of the output comes from a descriptor of a
    recognized kind at an input index [k], and [j] counts the recognized
    descriptors before [k]. *)
Lemma requests_from_nth (questions : list pydict) :
  forallb descriptor_record questions = true ->
  forall i j request,
    nth_error (requests_from i questions) j = Some request ->
    exists k q,
      nth_error questions k = Some q /\
      recognized q = true /\
      request_of (i + k) q = Some request /\
      j = List.length (filter recognized (firstn k questions)).
Proof.
  induction questions as [| q0 rest IH]; simpl; intros Hall i j request Hj.
  - destruct j; discriminate.
  - apply andb_true_iff in Hall. destruct Hall as [Hq Hrest].
    destruct (request_of_cases i q0 Hq) as [[Hr [k0 [Hk0 Hreq]]] | [Hr Hreq]];
      rewrite Hreq in Hj; simpl in Hj.
    + destruct j as [| j]; simpl in Hj.
      * injection Hj as <-. exists 0, q0. rewrite Nat.add_0_r. now repeat split.
      * destruct (IH Hrest (S i) j request Hj) as (k & q & Hnth & Hrq & Hrk & Hjk).
        exists (S k), q. simpl. rewrite Hr. simpl.
        replace (i + S k) with (S i + k) by lia. now repeat split; try f_equal.
    + destruct (IH Hrest (S i) j request Hj) as (k & q & Hnth & Hrq & Hrk & Hjk).
      exists (S k), q. simpl. rewrite Hr.
      replace (i + S k) with (S i + k) by lia. now repeat split.
Qed.

Lemma record_at (questions : list pydict) (i : nat) (q : pydict) :
  forallb descriptor_record questions = true ->
  nth_error questions i = Some q ->
  descriptor_record q = true.
Proof.
  intros Hall Hnth. rewrite forallb_forall in Hall. apply Hall.
  now apply nth_error_In with (n := i).
Qed.

(** What one round adds is the literal request of some kind. *)
Lemma request_of_literal (i : nat) (q : pydict) (request : pyval) :
  descriptor_record q = true ->
  request_of i q = Some request ->
  exists k, has_kind q k /\
    request = request_literal i q (payload_key k) (payload_of k q).
Proof.
  intros Hq Hreq.
  destruct (request_of_cases i q Hq) as [[_ [k [Hk Hlit]]] | [_ Hnone]].
  - exists k. split; [assumption |]. rewrite Hlit in Hreq. now injection Hreq.
  - rewrite Hnone in Hreq. discriminate.
Qed.

Lemma request_of_position (i : nat) (q : pydict) (request : pyval) :
  descriptor_record q = true ->
  request_of i q = Some request ->
  location_index request = position i.
Proof.
  intros Hq Hreq. destruct (request_of_literal i q request Hq Hreq) as [k [_ ->]].
  apply location_index_literal.
Qed.

(** The builder returns, and the literal request of a descriptor of kind
    [k] at input index [i] is in its output. *)
Lemma built_request (questions : list pydict) (log : list string)
  (i : nat) (q : pydict) (k : kind) :
  forallb descriptor_record questions = true ->
  nth_error questions i = Some q ->
  has_kind q k ->
  build questions log
  = (Ok (requests_from 0 questions), log ++ warnings_from questions) /\
  In (request_literal i q (payload_key k) (payload_of k q)) (requests_from 0 questions).
Proof.
  intros Hall Hnth Hk. split; [now apply build_run |].
  apply (requests_from_in questions 0 i q); [assumption |].
  apply request_of_kind; [assumption |]. now apply (record_at questions i q).
Qed.

(** Every request of the output is the literal request of a descriptor
    of the input. *)
Lemma request_origin (questions : list pydict) (request : pyval) :
  forallb descriptor_record questions = true ->
  In request (requests_from 0 questions) ->
  exists i q k,
    nth_error questions i = Some q /\ has_kind q k /\
    request_of i q = Some request /\
    request = request_literal i q (payload_key k) (payload_of k q).
Proof.
  intros Hall Hin. apply In_nth_error in Hin. destruct Hin as [j Hj].
  destruct (requests_from_nth questions Hall 0 j request Hj)
    as (i & q & Hnth & _ & Hreq & _).
  simpl in Hreq.
  destruct (request_of_literal i q request (record_at questions i q Hall Hnth) Hreq)
    as [k [Hk Hlit]].
  now exists i, q, k.
Qed.

(** ** Placement of the requests *)

(** C1.  For every sequence of descriptor records the builder returns,
    with exactly one request at the input index of each descriptor of a
    recognized kind and none at the index of a descriptor of another
    kind.  The output has as many requests as there are recognized
    descriptors, so no more than the input has descriptors; each request
    is the one the loop built for a recognized descriptor and carries
    that descriptor's input index, and the positions are the recognized
    input indices in increasing order. *)
Theorem one_request_per_recognized_descriptor
  (questions : list pydict) (log : list string) :
  forallb descriptor_record questions = true ->
  exists out,
    build questions log = (Ok out, log ++ warnings_from questions) /\
    (forall i q,
        nth_error questions i = Some q ->
        List.length (filter (at_index i) out) = if recognized q then 1 else 0) /\
    List.length out = List.length (filter recognized questions) /\
    List.length out <= List.length questions /\
    (forall request,
        In request out ->
        exists i q,
          nth_error questions i = Some q /\ recognized q = true /\
          request_of i q = Some request /\ location_index request = position i) /\
    map location_index out
    = map position (filter (recognized_at questions) (seq 0 (List.length questions))).
Proof.
  intros Hall. exists (requests_from 0 questions).
  split; [now apply build_run |].
  split; [| split; [| split; [| split]]].
  - intros i q Hnth. rewrite (requests_from_count questions Hall 0 i).
    rewrite Nat.sub_0_r. unfold recognized_at. now rewrite Hnth.
  - now apply requests_from_length.
  - rewrite (requests_from_length questions Hall 0). apply filter_length_le.
  - intros request Hin. apply In_nth_error in Hin. destruct Hin as [j Hj].
    destruct (requests_from_nth questions Hall 0 j request Hj)
      as (i & q & Hnth & Hrq & Hreq & _).
    exists i, q. simpl in Hreq. repeat split; try assumption.
    apply (request_of_position i q request (record_at questions i q Hall Hnth) Hreq).
  - rewrite (requests_from_positions questions Hall 0).
    f_equal. apply filter_ext. intros n. now rewrite Nat.sub_0_r.
Qed.

(** C2.  The positions are assigned before the unsupported descriptors
    are filtered out: they are the range 0..k-1 of the k input indices
    restricted to the recognized descriptors, and the [j]-th request of
    the output carries the input index [i] of the descriptor it was built
    from, where [j] counts the recognized descriptors before [i], so
    [j <= i] and the positions are not renumbered.  For an input of a
    text question, a question of an unsupported kind and a checkbox
    question the output has two requests, at positions 0 and 2. *)
Theorem positions_are_input_indices
  (questions : list pydict) (log : list string) :
  forallb descriptor_record questions = true ->
  exists out,
    build questions log = (Ok out, log ++ warnings_from questions) /\
    (forall j request,
        nth_error out j = Some request ->
        exists i q,
          nth_error questions i = Some q /\ recognized q = true /\
          request_of i q = Some request /\
          location_index request = position i /\
          j = List.length (filter recognized (firstn i questions)) /\
          j <= i) /\
    map location_index out
    = map position (filter (recognized_at questions) (seq 0 (List.length questions))) /\
    (forall q0 q1 q2,
        questions = [q0; q1; q2] ->
        has_kind q0 TEXT -> recognized q1 = false -> has_kind q2 CHECKBOX ->
        List.length out = 2 /\
        map location_index out = [position 0; position 2]).
Proof.
  intros Hall. exists (requests_from 0 questions).
  split; [now apply build_run |]. split; [| split].
  - intros j request Hj.
    destruct (requests_from_nth questions Hall 0 j request Hj)
      as (i & q & Hnth & Hrq & Hreq & Hji).
    exists i, q. simpl in Hreq. repeat split; try assumption.
    + apply (request_of_position i q request (record_at questions i q Hall Hnth) Hreq).
    + rewrite Hji.
      transitivity (List.length (firstn i questions)).
      * apply filter_length_le.
      * apply firstn_le_length.
  - rewrite (requests_from_positions questions Hall 0).
    f_equal. apply filter_ext. intros n. now rewrite Nat.sub_0_r.
  - intros q0 q1 q2 -> H0 H1 H2.
    assert (R0 : recognized q0 = true) by (apply recognized_has_kind; now exists TEXT).
    assert (R2 : recognized q2 = true) by (apply recognized_has_kind; now exists CHECKBOX).
    split.
    + rewrite (requests_from_length _ Hall 0). simpl. now rewrite R0, H1, R2.
    + rewrite (requests_from_positions _ Hall 0). unfold recognized_at. simpl.
      now rewrite R0, H1, R2.
Qed.

(** ** Payloads *)

Lemma dict_get_present (q : pydict) (k : string) (default v : pyval) :
  dict_lookup k q = Some v -> dict_get q k default = v.
Proof. unfold dict_get. now intros ->. Qed.

Lemma dict_get_missing (q : pydict) (k : string) (default : pyval) :
  dict_lookup k q = None -> dict_get q k default = default.
Proof. unfold dict_get. now intros ->. Qed.

(** C3.  A multiple choice or checkbox descriptor whose [options] field
    is the list [options] yields a request, at the descriptor's input
    index, whose [choiceQuestion] payload lists [{"value": opt}] for the
    options in their order; the payload's type is [RADIO] (single select)
    for multiple choice and [CHECKBOX] (multi select) for checkbox. *)
Theorem choice_options_in_order
  (questions : list pydict) (log : list string)
  (i : nat) (q : pydict) (k : kind) (variant : string) (options : list pyval) :
  forallb descriptor_record questions = true ->
  nth_error questions i = Some q ->
  has_kind q k ->
  choice_variant k = Some variant ->
  dict_lookup "options" q = Some (PyList options) ->
  exists out request,
    build questions log = (Ok out, log ++ warnings_from questions) /\
    In request out /\
    location_index request = position i /\
    question_field request "choiceQuestion"
    = Some (PyDict [("type", PyStr variant);
                    ("options", PyList (map option_entry options))]).
Proof.
  intros Hall Hnth Hk Hvar Hopt.
  destruct (built_request questions log i q k Hall Hnth Hk) as [Hrun Hin].
  exists (requests_from 0 questions), (request_literal i q (payload_key k) (payload_of k q)).
  repeat split; try assumption.
  destruct k; try discriminate; injection Hvar as <-;
    unfold question_field; simpl;
    now rewrite (dict_get_present q "options" _ _ Hopt).
Qed.

(** C4.  A scale descriptor yields a request whose [scaleQuestion]
    payload has the descriptor's [scale_min] and [scale_max] as [low] and
    [high], and as [lowLabel] and [highLabel] what [scale_labels] binds to
    [str(scale_min)] and [str(scale_max)].  With bounds 1 and 5 and labels
    [{"1": "Low", "5": "High"}] the payload is low 1, high 5, lowLabel
    Low, highLabel High; without [scale_labels] both labels are [None]. *)
Theorem scale_bounds_and_labels
  (questions : list pydict) (log : list string) (i : nat) (q : pydict) :
  forallb descriptor_record questions = true ->
  nth_error questions i = Some q ->
  has_kind q SCALE ->
  exists out request labels,
    build questions log = (Ok out, log ++ warnings_from questions) /\
    In request out /\
    location_index request = position i /\
    dict_get q "scale_labels" (PyDict []) = PyDict labels /\
    question_field request "scaleQuestion"
    = Some (PyDict
              [("low", dict_get q "scale_min" PyNone);
               ("high", dict_get q "scale_max" PyNone);
               ("lowLabel",
                 dict_get labels (py_str py_repr (dict_get q "scale_min" PyNone)) PyNone);
               ("highLabel",
                 dict_get labels (py_str py_repr (dict_get q "scale_max" PyNone)) PyNone)]) /\
    (dict_lookup "scale_min" q = Some (PyInt 1) ->
     dict_lookup "scale_max" q = Some (PyInt 5) ->
     dict_lookup "scale_labels" q
     = Some (PyDict [("1", PyStr "Low"); ("5", PyStr "High")]) ->
     question_field request "scaleQuestion"
     = Some (PyDict [("low", PyInt 1); ("high", PyInt 5);
                     ("lowLabel", PyStr "Low"); ("highLabel", PyStr "High")])) /\
    (dict_lookup "scale_labels" q = None ->
     question_field request "scaleQuestion"
     = Some (PyDict [("low", dict_get q "scale_min" PyNone);
                     ("high", dict_get q "scale_max" PyNone);
                     ("lowLabel", PyNone); ("highLabel", PyNone)])).
Proof.
  intros Hall Hnth Hk.
  destruct (built_request questions log i q SCALE Hall Hnth Hk) as [Hrun Hin].
  assert (Hq := record_at questions i q Hall Hnth).
  unfold descriptor_record, has_kind in Hq, Hk. rewrite Hk in Hq. simpl in Hq.
  rewrite (field_has_get q "scale_labels" is_dict (PyDict []) eq_refl) in Hq.
  destruct (dict_get q "scale_labels" (PyDict [])) as [| | | | | | labels] eqn:Hlabels;
    try discriminate.
  exists (requests_from 0 questions),
    (request_literal i q (payload_key SCALE) (payload_of SCALE q)), labels.
  repeat split; try assumption.
  - unfold question_field. simpl. now rewrite Hlabels.
  - intros Hmin Hmax Hlab. unfold question_field. simpl.
    rewrite (dict_get_present q "scale_min" _ _ Hmin).
    rewrite (dict_get_present q "scale_max" _ _ Hmax).
    now rewrite (dict_get_present q "scale_labels" _ _ Hlab).
  - intros Hlab. unfold question_field. simpl.
    now rewrite (dict_get_missing q "scale_labels" _ Hlab).
Qed.

(** C5.  A date descriptor with neither [include_time] nor
    [include_year] yields a request whose [dateQuestion] payload has
    [includeTime] false and [includeYear] true. *)
Theorem date_flags_default
  (questions : list pydict) (log : list string) (i : nat) (q : pydict) :
  forallb descriptor_record questions = true ->
  nth_error questions i = Some q ->
  has_kind q DATE ->
  dict_lookup "include_time" q = None ->
  dict_lookup "include_year" q = None ->
  exists out request,
    build questions log = (Ok out, log ++ warnings_from questions) /\
    In request out /\
    location_index request = position i /\
    question_field request "dateQuestion"
    = Some (PyDict [("includeTime", PyBool false); ("includeYear", PyBool true)]).
Proof.
  intros Hall Hnth Hk Htime Hyear.
  destruct (built_request questions log i q DATE Hall Hnth Hk) as [Hrun Hin].
  exists (requests_from 0 questions),
    (request_literal i q (payload_key DATE) (payload_of DATE q)).
  repeat split; try assumption.
  unfold question_field. simpl.
  now rewrite (dict_get_missing q "include_time" _ Htime),
    (dict_get_missing q "include_year" _ Hyear).
Qed.

(** C6.  On every sequence of descriptor records the builder returns a
    list and raises nothing, whatever fields the records lack; a multiple
    choice or checkbox descriptor without [options] gets a request whose
    choice payload has the empty list of options. *)
Theorem missing_fields_never_raise
  (questions : list pydict) (log : list string) :
  forallb descriptor_record questions = true ->
  exists out,
    build questions log = (Ok out, log ++ warnings_from questions) /\
    (forall i q k variant,
        nth_error questions i = Some q ->
        has_kind q k ->
        choice_variant k = Some variant ->
        dict_lookup "options" q = None ->
        exists request,
          In request out /\
          location_index request = position i /\
          question_field request "choiceQuestion"
          = Some (PyDict [("type", PyStr variant); ("options", PyList [])])).
Proof.
  intros Hall. exists (requests_from 0 questions).
  split; [now apply build_run |].
  intros i q k variant Hnth Hk Hvar Hopt.
  destruct (built_request questions log i q k Hall Hnth Hk) as [_ Hin].
  exists (request_literal i q (payload_key k) (payload_of k q)).
  repeat split; try assumption.
  destruct k; try discriminate; injection Hvar as <-;
    unfold question_field; simpl;
    now rewrite (dict_get_missing q "options" _ Hopt).
Qed.

(** ** The fields copied from the descriptor *)

(** C7.  The request of a descriptor of a recognized kind carries the
    descriptor's [title] and [description] in its item and its
    [required] in the question, each as the descriptor binds it;
    [required] is false when the descriptor has none. *)
Theorem title_description_required_copied
  (questions : list pydict) (log : list string) (i : nat) (q : pydict) :
  forallb descriptor_record questions = true ->
  nth_error questions i = Some q ->
  recognized q = true ->
  exists out request,
    build questions log = (Ok out, log ++ warnings_from questions) /\
    In request out /\
    location_index request = position i /\
    (forall v, dict_lookup "title" q = Some v -> item_field request "title" = Some v) /\
    (forall v, dict_lookup "description" q = Some v ->
               item_field request "description" = Some v) /\
    (forall v, dict_lookup "required" q = Some v ->
               question_field request "required" = Some v) /\
    (dict_lookup "required" q = None ->
     question_field request "required" = Some (PyBool false)).
Proof.
  intros Hall Hnth Hrq.
  destruct (proj1 (recognized_has_kind q) Hrq) as [k Hk].
  destruct (built_request questions log i q k Hall Hnth Hk) as [Hrun Hin].
  exists (requests_from 0 questions), (request_literal i q (payload_key k) (payload_of k q)).
  repeat split; try assumption.
  - intros v Hv. unfold item_field. simpl. now rewrite (dict_get_present q "title" _ _ Hv).
  - intros v Hv. unfold item_field. simpl.
    now rewrite (dict_get_present q "description" _ _ Hv).
  - intros v Hv. unfold question_field. simpl.
    now rewrite (dict_get_present q "required" _ _ Hv).
  - intros Hv. unfold question_field. simpl.
    now rewrite (dict_get_missing q "required" _ Hv).
Qed.

(** C8.  A descriptor of a recognized kind without a [title] is not
    dropped: the output has exactly one request at its input index, and
    the title of that request's item is [None]. *)
Theorem untitled_descriptor_kept
  (questions : list pydict) (log : list string) (i : nat) (q : pydict) :
  forallb descriptor_record questions = true ->
  nth_error questions i = Some q ->
  recognized q = true ->
  dict_lookup "title" q = None ->
  exists out request,
    build questions log = (Ok out, log ++ warnings_from questions) /\
    filter (at_index i) out = [request] /\
    In request out /\
    location_index request = position i /\
    item_field request "title" = Some PyNone.
Proof.
  intros Hall Hnth Hrq Htitle.
  destruct (proj1 (recognized_has_kind q) Hrq) as [k Hk].
  destruct (built_request questions log i q k Hall Hnth Hk) as [Hrun Hin].
  exists (requests_from 0 questions), (request_literal i q (payload_key k) (payload_of k q)).
  repeat split; try assumption.
  - pose proof (requests_from_count questions Hall 0 i) as Hcount.
    rewrite Nat.sub_0_r in Hcount. unfold recognized_at in Hcount.
    rewrite Hnth, Hrq in Hcount. simpl in Hcount.
    assert (Hmem : In (request_literal i q (payload_key k) (payload_of k q))
                     (filter (at_index i) (requests_from 0 questions))).
    { apply filter_In. split; [assumption |].
      now rewrite at_index_literal, Nat.eqb_refl. }
    destruct (filter (at_index i) (requests_from 0 questions)) as [| r [| r' rest]];
      try discriminate.
    destruct Hmem as [-> | []]. reflexivity.
  - unfold item_field. simpl. now rewrite (dict_get_missing q "title" _ Htitle).
Qed.

(** C9.  The item of every request of the output binds the key
    [description]: to the descriptor's description, and to [None] when
    the descriptor has none. *)
Theorem description_key_always_present
  (questions : list pydict) (log : list string) :
  forallb descriptor_record questions = true ->
  exists out,
    build questions log = (Ok out, log ++ warnings_from questions) /\
    forall request,
      In request out ->
      exists i q item,
        nth_error questions i = Some q /\
        request_of i q = Some request /\
        py_path request ["createItem"; "item"] = Some (PyDict item) /\
        In "description" (map fst item) /\
        item_field request "description" = Some (dict_get q "description" PyNone) /\
        (dict_lookup "description" q = None ->
         item_field request "description" = Some PyNone).
Proof.
  intros Hall. exists (requests_from 0 questions).
  split; [now apply build_run |].
  intros request Hin.
  destruct (request_origin questions request Hall Hin) as (i & q & k & Hnth & Hk & Hreq & ->).
  exists i, q. eexists. split; [assumption |]. split; [assumption |].
  split; [reflexivity |]. split; [simpl; tauto |]. split; [reflexivity |].
  intros Hd. unfold item_field. simpl.
  now rewrite (dict_get_missing q "description" _ Hd).
Qed.

(** ** Scale questions without bounds *)

Lemma int_str_not_None (z : Z) : int_str z <> "None".
Proof.
  unfold int_str. destruct z as [| p | p]; simpl; try discriminate.
  destruct (Pos.to_uint p); discriminate.
Qed.

Lemma integer_keys_miss_None (d : pydict) :
  keyed_by_integers d -> dict_lookup "None" d = None.
Proof.
  unfold keyed_by_integers. induction d as [| [k v] rest IH]; intros Hkeys;
    [reflexivity |].
  simpl. destruct (String.eqb_spec k "None") as [-> | Hne].
  - destruct (Hkeys "None" (or_introl eq_refl)) as [z Hz].
    symmetry in Hz. now apply int_str_not_None in Hz.
  - apply IH. intros k' Hk'. apply Hkeys. now right.
Qed.

(** C10.  A scale descriptor without [scale_min] (or [scale_max]) still
    yields a request, whether or not it has [scale_labels]; its payload
    has [low] (or [high]) bound to [None], and the label is looked up
    under the key [str(None)] in the supplied labels (in the empty dict
    when none are supplied), so labels keyed by integers give [lowLabel]
    (or [highLabel]) [None]. *)
Theorem scale_without_bound
  (questions : list pydict) (log : list string) (i : nat) (q : pydict) :
  forallb descriptor_record questions = true ->
  nth_error questions i = Some q ->
  has_kind q SCALE ->
  exists out request payload labels,
    build questions log = (Ok out, log ++ warnings_from questions) /\
    In request out /\
    location_index request = position i /\
    question_field request "scaleQuestion" = Some (PyDict payload) /\
    (dict_lookup "scale_labels" q = None -> labels = []) /\
    (forall supplied,
        dict_lookup "scale_labels" q = Some supplied -> supplied = PyDict labels) /\
    (dict_lookup "scale_min" q = None ->
     dict_lookup "low" payload = Some PyNone /\
     dict_lookup "lowLabel" payload = Some (dict_get labels "None" PyNone) /\
     (keyed_by_integers labels -> dict_lookup "lowLabel" payload = Some PyNone)) /\
    (dict_lookup "scale_max" q = None ->
     dict_lookup "high" payload = Some PyNone /\
     dict_lookup "highLabel" payload = Some (dict_get labels "None" PyNone) /\
     (keyed_by_integers labels -> dict_lookup "highLabel" payload = Some PyNone)).
Proof.
  intros Hall Hnth Hk.
  destruct (built_request questions log i q SCALE Hall Hnth Hk) as [Hrun Hin].
  assert (Hq := record_at questions i q Hall Hnth).
  unfold descriptor_record, has_kind in Hq, Hk. rewrite Hk in Hq. simpl in Hq.
  rewrite (field_has_get q "scale_labels" is_dict (PyDict []) eq_refl) in Hq.
  destruct (dict_get q "scale_labels" (PyDict [])) as [| | | | | | labels] eqn:Hlabels;
    try discriminate.
  exists (requests_from 0 questions),
    (request_literal i q (payload_key SCALE) (payload_of SCALE q)).
  eexists. exists labels.
  split; [assumption |]. split; [assumption |]. split; [reflexivity |].
  split; [reflexivity |].
  split; [| split].
  - intros Hnone. rewrite (dict_get_missing q "scale_labels" _ Hnone) in Hlabels.
    now injection Hlabels.
  - intros supplied Hsome.
    now rewrite (dict_get_present q "scale_labels" _ _ Hsome) in Hlabels.
  - rewrite Hlabels.
    split; intros Hmissing; rewrite (dict_get_missing q _ _ Hmissing); simpl;
      (split; [reflexivity |]); (split; [reflexivity |]);
      intros Hkeys; unfold dict_get; now rewrite (integer_keys_miss_None labels Hkeys).
Qed.

(** ** Where the builder raises *)

(** The records are exactly the descriptors on which a round of the loop
    does not raise. *)
Lemma loop_body_raises (i : nat) (q : pydict) (requests : list pyval) (log : list string) :
  descriptor_record q = false ->
  exists e, loop_body py_repr i q requests log = (Raise e, log).
Proof.
  unfold descriptor_record, loop_body. cbv zeta.
  destruct (dict_get q "type" PyNone) as [| b | z | f | s | l | d]; simpl;
    try discriminate.
  split_kind s; simpl; try discriminate; intros Hrec.
  - rewrite (field_has_get q "options" iterable (PyList []) eq_refl) in Hrec.
    destruct (dict_get q "options" (PyList [])); try discriminate;
      now exists TypeError.
  - rewrite (field_has_get q "scale_labels" is_dict (PyDict []) eq_refl) in Hrec.
    destruct (dict_get q "scale_labels" (PyDict [])); try discriminate;
      now exists AttributeError.
  - rewrite (field_has_get q "options" iterable (PyList []) eq_refl) in Hrec.
    destruct (dict_get q "options" (PyList [])); try discriminate;
      now exists TypeError.
Qed.

Lemma build_loop_raises (questions : list pydict) :
  forallb descriptor_record questions = false ->
  forall (i : nat) (requests : list pyval) (log : list string),
  exists e log', build_loop py_repr i questions requests log = (Raise e, log').
Proof.
  induction questions as [| q rest IH]; simpl; intros Hall i requests log;
    [discriminate |].
  unfold bind. destruct (descriptor_record q) eqn:Hq; simpl in Hall.
  - rewrite (loop_body_run i q requests log Hq). apply (IH Hall).
  - destruct (loop_body_raises i q requests log Hq) as [e ->]. now exists e, log.
Qed.

(** The builder returns a list exactly on the sequences of descriptor
    records. *)
Lemma build_returns_iff (questions : list pydict) (log : list string) :
  (exists out log', build questions log = (Ok out, log'))
  <-> forallb descriptor_record questions = true.
Proof.
  split.
  - intros (out & log' & Hrun).
    destruct (forallb descriptor_record questions) eqn:Hall; [reflexivity |].
    destruct (build_loop_raises questions Hall 0 [] log) as (e & log'' & Hraise).
    unfold _build_question_requests in Hrun. rewrite Hraise in Hrun. discriminate.
  - intros Hall. eexists. eexists. now apply build_run.
Qed.

(** One warning is logged for each descriptor of an unrecognized kind. *)
Lemma warnings_from_length (questions : list pydict) :
  List.length (warnings_from questions)
  = List.length (filter (fun q => negb (recognized q)) questions).
Proof.
  induction questions as [| q rest IH]; simpl; [reflexivity |].
  rewrite length_app, IH. unfold warning_of. now destruct (recognized q).
Qed.

End Correctness.

(** ** The builder on the samples *)


Example empty_run :
  _build_question_requests plain_repr [] [] = (Ok [], []).
Proof. reflexivity. Qed.

Example null_options_raise :
  _build_question_requests plain_repr
    [text_question;
     [("type", PyStr "MULTIPLE_CHOICE_QUESTION"); ("options", PyNone)]] []
  = (Raise TypeError, []).
Proof. reflexivity. Qed.

Example null_labels_raise :
  _build_question_requests plain_repr
    [[("type", PyStr "SCALE_QUESTION"); ("scale_labels", PyNone)]] []
  = (Raise AttributeError, []).
Proof. reflexivity. Qed.

Example labels_under_None :
  _build_question_requests plain_repr
    [[("type", PyStr "SCALE_QUESTION"); ("scale_max", PyInt (-3));
      ("scale_labels", PyDict [("None", PyStr "unset"); ("-3", PyStr "cold")])]] []
  = (Ok [request_literal 0 [("type", PyStr "SCALE_QUESTION")] "scaleQuestion"
           (PyDict [("low", PyNone); ("high", PyInt (-3));
                    ("lowLabel", PyStr "unset"); ("highLabel", PyStr "cold")])],
     []).
Proof. reflexivity. Qed.

(** ** The theorems on the samples *)

Lemma one_request_per_recognized_descriptor_witness :
  forallb descriptor_record mixed_questions = true /\
  exists out,
    fst (_build_question_requests plain_repr mixed_questions []) = Ok out /\
    List.length out = 2 /\
    List.length (filter (at_index 1) out) = 0 /\
    map location_index out = [position 0; position 2].
Proof.
  split; [reflexivity |].
  destruct (one_request_per_recognized_descriptor plain_repr mixed_questions []
              eq_refl)
    as (out & Hrun & Hcount & Hlen & _ & _ & Hpos).
  exists out. split; [now rewrite Hrun |]. split; [exact Hlen |].
  split; [exact (Hcount 1 unknown_question eq_refl) | exact Hpos].
Defined.

Lemma positions_are_input_indices_witness :
  forallb descriptor_record mixed_questions = true /\
  exists out,
    fst (_build_question_requests plain_repr mixed_questions []) = Ok out /\
    List.length out = 2 /\
    map location_index out = [position 0; position 2].
Proof.
  split; [reflexivity |].
  destruct (positions_are_input_indices plain_repr mixed_questions [] eq_refl)
    as (out & Hrun & _ & _ & Hmixed).
  exists out. split; [now rewrite Hrun |].
  exact (Hmixed text_question unknown_question checkbox_question
           eq_refl eq_refl eq_refl eq_refl).
Defined.

Lemma choice_options_in_order_witness :
  forallb descriptor_record mixed_questions = true /\
  nth_error mixed_questions 2 = Some checkbox_question /\
  has_kind checkbox_question CHECKBOX /\
  choice_variant CHECKBOX = Some "CHECKBOX" /\
  exists out request,
    fst (_build_question_requests plain_repr mixed_questions []) = Ok out /\
    In request out /\
    location_index request = position 2 /\
    question_field request "choiceQuestion"
    = Some (PyDict [("type", PyStr "CHECKBOX");
                    ("options",
                      PyList [option_entry (PyStr "Ham"); option_entry (PyStr "Egg");
                              option_entry (PyStr "Ham")])]).
Proof.
  repeat (split; [reflexivity |]).
  destruct (choice_options_in_order plain_repr mixed_questions [] 2 checkbox_question
              CHECKBOX "CHECKBOX" [PyStr "Ham"; PyStr "Egg"; PyStr "Ham"]
              eq_refl eq_refl eq_refl eq_refl eq_refl)
    as (out & request & Hrun & Hin & Hpos & Hpayload).
  exists out, request. split; [now rewrite Hrun |].
  split; [exact Hin |]. split; [exact Hpos | exact Hpayload].
Defined.

Lemma scale_bounds_and_labels_witness :
  forallb descriptor_record [scale_question] = true /\
  has_kind scale_question SCALE /\
  exists out request,
    fst (_build_question_requests plain_repr [scale_question] []) = Ok out /\
    In request out /\
    question_field request "scaleQuestion"
    = Some (PyDict [("low", PyInt 1); ("high", PyInt 5);
                    ("lowLabel", PyStr "Low"); ("highLabel", PyStr "High")]).
Proof.
  repeat (split; [reflexivity |]).
  destruct (scale_bounds_and_labels plain_repr [scale_question] [] 0 scale_question
              eq_refl eq_refl eq_refl)
    as (out & request & labels & Hrun & Hin & _ & _ & _ & Hsample & _).
  exists out, request. split; [now rewrite Hrun |].
  split; [exact Hin | exact (Hsample eq_refl eq_refl eq_refl)].
Defined.

Lemma date_flags_default_witness :
  forallb descriptor_record [unknown_question; date_question] = true /\
  has_kind date_question DATE /\
  dict_lookup "include_time" date_question = None /\
  dict_lookup "include_year" date_question = None /\
  exists out request,
    fst (_build_question_requests plain_repr [unknown_question; date_question] [])
    = Ok out /\
    In request out /\
    location_index request = position 1 /\
    question_field request "dateQuestion"
    = Some (PyDict [("includeTime", PyBool false); ("includeYear", PyBool true)]).
Proof.
  repeat (split; [reflexivity |]).
  destruct (date_flags_default plain_repr [unknown_question; date_question] [] 1
              date_question eq_refl eq_refl eq_refl eq_refl eq_refl)
    as (out & request & Hrun & Hin & Hpos & Hpayload).
  exists out, request. split; [now rewrite Hrun |].
  split; [exact Hin |]. split; [exact Hpos | exact Hpayload].
Defined.

Lemma missing_fields_never_raise_witness :
  forallb descriptor_record [bare_choice_question; untitled_time_question] = true /\
  dict_lookup "options" bare_choice_question = None /\
  exists out request,
    fst (_build_question_requests plain_repr
           [bare_choice_question; untitled_time_question] []) = Ok out /\
    In request out /\
    question_field request "choiceQuestion"
    = Some (PyDict [("type", PyStr "RADIO"); ("options", PyList [])]).
Proof.
  repeat (split; [reflexivity |]).
  destruct (missing_fields_never_raise plain_repr
              [bare_choice_question; untitled_time_question] [] eq_refl)
    as (out & Hrun & Hbare).
  destruct (Hbare 0 bare_choice_question MULTIPLE_CHOICE "RADIO"
              eq_refl eq_refl eq_refl eq_refl)
    as (request & Hin & _ & Hpayload).
  exists out, request. split; [now rewrite Hrun |].
  split; [exact Hin | exact Hpayload].
Defined.

Lemma title_description_required_copied_witness :
  forallb descriptor_record mixed_questions = true /\
  recognized text_question = true /\
  exists out request,
    fst (_build_question_requests plain_repr mixed_questions []) = Ok out /\
    In request out /\
    item_field request "title" = Some (PyStr "Name") /\
    question_field request "required" = Some (PyBool false).
Proof.
  repeat (split; [reflexivity |]).
  destruct (title_description_required_copied plain_repr mixed_questions [] 0
              text_question eq_refl eq_refl eq_refl)
    as (out & request & Hrun & Hin & _ & Htitle & _ & _ & Hrequired).
  exists out, request. split; [now rewrite Hrun |].
  split; [exact Hin |].
  split; [exact (Htitle (PyStr "Name") eq_refl) | exact (Hrequired eq_refl)].
Defined.

Lemma untitled_descriptor_kept_witness :
  forallb descriptor_record [unknown_question; untitled_time_question] = true /\
  recognized untitled_time_question = true /\
  dict_lookup "title" untitled_time_question = None /\
  exists out request,
    fst (_build_question_requests plain_repr
           [unknown_question; untitled_time_question] []) = Ok out /\
    filter (at_index 1) out = [request] /\
    item_field request "title" = Some PyNone.
Proof.
  repeat (split; [reflexivity |]).
  destruct (untitled_descriptor_kept plain_repr
              [unknown_question; untitled_time_question] [] 1 untitled_time_question
              eq_refl eq_refl eq_refl eq_refl)
    as (out & request & Hrun & Hone & _ & _ & Htitle).
  exists out, request. split; [now rewrite Hrun |].
  split; [exact Hone | exact Htitle].
Defined.

Lemma description_key_always_present_witness :
  forallb descriptor_record mixed_questions = true /\
  exists out,
    fst (_build_question_requests plain_repr mixed_questions []) = Ok out /\
    forall request,
      In request out -> exists v, item_field request "description" = Some v.
Proof.
  split; [reflexivity |].
  destruct (description_key_always_present plain_repr mixed_questions [] eq_refl)
    as (out & Hrun & Hkey).
  exists out. split; [now rewrite Hrun |].
  intros request Hin.
  destruct (Hkey request Hin) as (i & q & item & _ & _ & _ & _ & Hdesc & _).
  now exists (dict_get q "description" PyNone).
Defined.

Lemma sample_labels_keyed_by_integers :
  keyed_by_integers [("1", PyStr "Low"); ("5", PyStr "High")].
Proof.
  intros k [<- | [<- | []]]; [exists 1%Z | exists 5%Z]; reflexivity.
Qed.

Lemma scale_without_bound_witness :
  (forallb descriptor_record [unbounded_scale_question] = true /\
   has_kind unbounded_scale_question SCALE /\
   dict_lookup "scale_min" unbounded_scale_question = None /\
   exists out request payload,
     fst (_build_question_requests plain_repr [unbounded_scale_question] []) = Ok out /\
     In request out /\
     question_field request "scaleQuestion" = Some (PyDict payload) /\
     dict_lookup "low" payload = Some PyNone /\
     dict_lookup "lowLabel" payload = Some PyNone) /\
  (forallb descriptor_record
     [[("type", PyStr "SCALE_QUESTION"); ("scale_min", PyInt 1)]] = true /\
   dict_lookup "scale_max" [("type", PyStr "SCALE_QUESTION"); ("scale_min", PyInt 1)]
   = None /\
   dict_lookup "scale_labels" [("type", PyStr "SCALE_QUESTION"); ("scale_min", PyInt 1)]
   = None /\
   exists out request payload,
     fst (_build_question_requests plain_repr
            [[("type", PyStr "SCALE_QUESTION"); ("scale_min", PyInt 1)]] []) = Ok out /\
     In request out /\
     question_field request "scaleQuestion" = Some (PyDict payload) /\
     dict_lookup "high" payload = Some PyNone /\
     dict_lookup "highLabel" payload = Some PyNone).
Proof.
  split.
  - repeat (split; [reflexivity |]).
    destruct (scale_without_bound plain_repr [unbounded_scale_question] [] 0
                unbounded_scale_question eq_refl eq_refl eq_refl)
      as (out & request & payload & labels & Hrun & Hin & _ & Hpayload
          & _ & Hsupplied & Hlow & _).
    pose proof (Hsupplied _ eq_refl) as Hsame. injection Hsame as Hsame.
    destruct (Hlow eq_refl) as (Hnone & _ & Hlabel).
    exists out, request, payload. split; [now rewrite Hrun |].
    split; [exact Hin |]. split; [exact Hpayload |].
    split; [exact Hnone |].
    apply Hlabel. rewrite <- Hsame. exact sample_labels_keyed_by_integers.
  - repeat (split; [reflexivity |]).
    destruct (scale_without_bound plain_repr
                [[("type", PyStr "SCALE_QUESTION"); ("scale_min", PyInt 1)]] [] 0
                [("type", PyStr "SCALE_QUESTION"); ("scale_min", PyInt 1)]
                eq_refl eq_refl eq_refl)
      as (out & request & payload & labels & Hrun & Hin & _ & Hpayload
          & Hmissing & _ & _ & Hhigh).
    pose proof (Hmissing eq_refl) as Hempty.
    destruct (Hhigh eq_refl) as (Hnone & _ & Hlabel).
    exists out, request, payload. split; [now rewrite Hrun |].
    split; [exact Hin |]. split; [exact Hpayload |].
    split; [exact Hnone |].
    apply Hlabel. rewrite Hempty. intros k [].
Defined.

(** * More on the builder *)

Section BuilderBehaviour.

Variable py_repr : pyval -> string.

Local Abbreviation build := (_build_question_requests py_repr).

Ltac split_tag s :=
  destruct (String.eqb_spec s "TEXT_QUESTION") as [-> |];
  [| destruct (String.eqb_spec s "MULTIPLE_CHOICE_QUESTION") as [-> |];
     [| destruct (String.eqb_spec s "SCALE_QUESTION") as [-> |];
        [| destruct (String.eqb_spec s "CHECKBOX_QUESTION") as [-> |];
           [| destruct (String.eqb_spec s "DATE_QUESTION") as [-> |];
              [| destruct (String.eqb_spec s "TIME_QUESTION") as [-> |] ]]]]].

(** The loop over a concatenation is the loop over the first part, then
    the loop over the second part from the next index on. *)
Lemma build_loop_app (a b : list pydict) :
  forall (i : nat) (requests : list pyval) (log : list string),
    build_loop py_repr i (a ++ b) requests log
    = match build_loop py_repr i a requests log with
      | (Ok requests', log') => build_loop py_repr (i + List.length a) b requests' log'
      | (Raise e, log') => (Raise e, log')
      end.
Proof.
  induction a as [| q a IH]; intros i requests log.
  - simpl. unfold ret. now rewrite Nat.add_0_r.
  - simpl. unfold bind.
    destruct (loop_body py_repr i q requests log) as [[requests' | e] log'];
      [| reflexivity].
    rewrite IH. now replace (S i + List.length a) with (i + S (List.length a)) by lia.
Qed.

Lemma loop_body_ill_shaped (i : nat) (q : pydict) (requests : list pyval)
  (log : list string) :
  descriptor_record q = false ->
  loop_body py_repr i q requests log = (Raise (ill_shape_error q), log).
Proof.
  unfold descriptor_record, ill_shape_error, loop_body. cbv zeta.
  destruct (dict_get q "type" PyNone) as [| b | z | f | s | l | d]; simpl;
    try discriminate.
  split_tag s; simpl; try discriminate; intros Hrec.
  - rewrite (field_has_get q "options" iterable (PyList []) eq_refl) in Hrec.
    destruct (dict_get q "options" (PyList [])); try discriminate; reflexivity.
  - rewrite (field_has_get q "scale_labels" is_dict (PyDict []) eq_refl) in Hrec.
    destruct (dict_get q "scale_labels" (PyDict [])); try discriminate; reflexivity.
  - rewrite (field_has_get q "options" iterable (PyList []) eq_refl) in Hrec.
    destruct (dict_get q "options" (PyList [])); try discriminate; reflexivity.
Qed.

Lemma build_raises_at
  (before after : list pydict) (q : pydict) (log : list string) :
  forallb descriptor_record before = true ->
  descriptor_record q = false ->
  build (before ++ q :: after) log
  = (Raise (ill_shape_error q), log ++ warnings_from py_repr before).
Proof.
  intros Hbefore Hq. unfold _build_question_requests.
  rewrite build_loop_app, (build_loop_run py_repr before Hbefore).
  simpl. unfold bind. now rewrite (loop_body_ill_shaped _ q _ _ Hq).
Qed.

(** X1.  The builder stops at the first descriptor that is no record: it
    raises [TypeError] for [options] that cannot be iterated and
    [AttributeError] for [scale_labels] that is no dict, returns none of
    the requests built so far, and has logged the warnings of the
    descriptors before that one only. *)
Theorem builder_stops_at_first_ill_shaped
  (before after : list pydict) (q : pydict) (log : list string) :
  forallb descriptor_record before = true ->
  descriptor_record q = false ->
  build (before ++ q :: after) log
  = (Raise (ill_shape_error q), log ++ warnings_from py_repr before).
Proof. exact (build_raises_at before after q log). Qed.

Lemma warnings_from_skipped (questions : list pydict) :
  warnings_from py_repr questions
  = map (skip_message py_repr) (filter (fun q => negb (recognized q)) questions).
Proof.
  induction questions as [| q rest IH]; simpl; [reflexivity |].
  rewrite IH. unfold warning_of. now destruct (recognized q).
Qed.

(** X2.  For descriptor records the builder adds to the log one warning
    for each descriptor of an unrecognized kind, in input order, naming
    the descriptor's type and title, and nothing else. *)
Theorem warnings_in_input_order (questions : list pydict) (log : list string) :
  forallb descriptor_record questions = true ->
  snd (build questions log)
  = log ++ map (skip_message py_repr) (filter (fun q => negb (recognized q)) questions).
Proof.
  intros Hall. rewrite (build_run py_repr questions log Hall). simpl.
  now rewrite warnings_from_skipped.
Qed.

(** X3.  Building a concatenation of two sequences of descriptor records
    gives the requests of the first sequence followed by the requests of
    the second one built from the index after the first sequence. *)
Theorem builder_of_concatenation (a b : list pydict) (log : list string) :
  forallb descriptor_record a = true ->
  forallb descriptor_record b = true ->
  exists out_a out_b,
    fst (build a log) = Ok out_a /\
    fst (build_loop py_repr (List.length a) b [] log) = Ok out_b /\
    fst (build (a ++ b) log) = Ok (out_a ++ out_b) /\
    (forall request,
        In request out_b ->
        exists i, location_index request = position (List.length a + i) /\
                  i < List.length b).
Proof.
  intros Ha Hb.
  exists (requests_from py_repr 0 a), (requests_from py_repr (List.length a) b).
  split; [now rewrite (build_run py_repr a log Ha) |].
  split; [now rewrite (build_loop_run py_repr b Hb) |].
  split.
  - unfold _build_question_requests.
    rewrite build_loop_app, (build_loop_run py_repr a Ha), (build_loop_run py_repr b Hb).
    reflexivity.
  - intros request Hin. apply In_nth_error in Hin. destruct Hin as [j Hj].
    destruct (requests_from_nth py_repr b Hb (List.length a) j request Hj)
      as (i & q & Hnth & _ & Hreq & _).
    exists i. split.
    + apply (request_of_position py_repr _ q request
               (record_at b i q Hb Hnth) Hreq).
    + apply nth_error_Some. now rewrite Hnth.
Qed.

(** X4.  A text question gets the empty [textQuestion] payload and a time
    question the empty [timeQuestion] payload, whatever other fields the
    descriptor has. *)
Theorem text_and_time_payloads_empty
  (questions : list pydict) (log : list string) (i : nat) (q : pydict) (k : kind) :
  forallb descriptor_record questions = true ->
  nth_error questions i = Some q ->
  has_kind q k ->
  k = TEXT \/ k = TIME ->
  exists out request,
    build questions log = (Ok out, log ++ warnings_from py_repr questions) /\
    In request out /\
    location_index request = position i /\
    question_field request (payload_key k) = Some (PyDict []).
Proof.
  intros Hall Hnth Hk Hkind.
  destruct (built_request py_repr questions log i q k Hall Hnth Hk) as [Hrun Hin].
  exists (requests_from py_repr 0 questions),
    (request_literal i q (payload_key k) (payload_of py_repr k q)).
  repeat split; try assumption.
  destruct Hkind as [-> | ->]; reflexivity.
Qed.

(** X5.  The question of every request has two keys: [required] and the
    payload key of its descriptor's kind.  A request never carries the
    payload of another kind. *)
Theorem one_payload_per_question (questions : list pydict) (log : list string) :
  forallb descriptor_record questions = true ->
  exists out,
    build questions log = (Ok out, log ++ warnings_from py_repr questions) /\
    forall request,
      In request out ->
      exists i q k payload,
        nth_error questions i = Some q /\ has_kind q k /\
        py_path request ["createItem"; "item"; "questionItem"; "question"]
        = Some (PyDict [("required", dict_get q "required" (PyBool false));
                        (payload_key k, payload)]) /\
        forall k', payload_key k' <> payload_key k ->
                   question_field request (payload_key k') = None.
Proof.
  intros Hall. exists (requests_from py_repr 0 questions).
  split; [now apply build_run |].
  intros request Hin.
  destruct (request_origin py_repr questions request Hall Hin)
    as (i & q & k & Hnth & Hk & _ & ->).
  exists i, q, k, (payload_of py_repr k q).
  split; [assumption |]. split; [assumption |]. split; [reflexivity |].
  intros k' Hne.
  destruct k, k'; try reflexivity; exfalso; apply Hne; reflexivity.
Qed.

(** X6.  The options of a choice or checkbox question are whatever
    iterating the [options] value gives, not only the elements of a
    list: a str given as [options] yields one option per character. *)
Theorem options_are_iterated
  (questions : list pydict) (log : list string)
  (i : nat) (q : pydict) (k : kind) (variant : string)
  (options : pyval) (elements : list pyval) :
  forallb descriptor_record questions = true ->
  nth_error questions i = Some q ->
  has_kind q k ->
  choice_variant k = Some variant ->
  dict_lookup "options" q = Some options ->
  py_iter options = Ok elements ->
  exists out request,
    build questions log = (Ok out, log ++ warnings_from py_repr questions) /\
    In request out /\
    location_index request = position i /\
    question_field request "choiceQuestion"
    = Some (PyDict [("type", PyStr variant);
                    ("options", PyList (map option_entry elements))]) /\
    (forall s, options = PyStr s ->
               elements
               = map (fun c => PyStr (String c EmptyString)) (list_ascii_of_string s) /\
               List.length elements = String.length s).
Proof.
  intros Hall Hnth Hk Hvar Hopt Hiter.
  destruct (built_request py_repr questions log i q k Hall Hnth Hk) as [Hrun Hin].
  exists (requests_from py_repr 0 questions),
    (request_literal i q (payload_key k) (payload_of py_repr k q)).
  split; [assumption |]. split; [assumption |]. split; [reflexivity |]. split.
  - destruct k; try discriminate; injection Hvar as <-;
      unfold question_field; simpl;
      now rewrite (dict_get_present q "options" _ _ Hopt), Hiter.
  - intros s ->. simpl in Hiter. injection Hiter as <-.
    split; [reflexivity |].
    rewrite length_map. clear. induction s as [| c s IH]; simpl; congruence.
Qed.

Lemma same_read_fields_get (q q' : pydict) (k : string) (default : pyval) :
  same_read_fields q q' -> In k read_keys ->
  dict_get q k default = dict_get q' k default.
Proof.
  intros Hsame Hk. unfold dict_get. now rewrite (Hsame k Hk).
Qed.

Lemma loop_body_same_read_fields (i : nat) (q q' : pydict)
  (requests : list pyval) (log : list string) :
  same_read_fields q q' ->
  loop_body py_repr i q requests log = loop_body py_repr i q' requests log.
Proof.
  intros Hsame. unfold loop_body. cbv zeta.
  rewrite (same_read_fields_get q q' "type" PyNone Hsame) by (simpl; tauto).
  rewrite (same_read_fields_get q q' "title" PyNone Hsame) by (simpl; tauto).
  rewrite (same_read_fields_get q q' "description" PyNone Hsame) by (simpl; tauto).
  rewrite (same_read_fields_get q q' "required" (PyBool false) Hsame) by (simpl; tauto).
  rewrite (same_read_fields_get q q' "options" (PyList []) Hsame) by (simpl; tauto).
  rewrite (same_read_fields_get q q' "scale_min" PyNone Hsame) by (simpl; tauto).
  rewrite (same_read_fields_get q q' "scale_max" PyNone Hsame) by (simpl; tauto).
  rewrite (same_read_fields_get q q' "scale_labels" (PyDict []) Hsame) by (simpl; tauto).
  rewrite (same_read_fields_get q q' "include_time" (PyBool false) Hsame)
    by (simpl; tauto).
  rewrite (same_read_fields_get q q' "include_year" (PyBool true) Hsame)
    by (simpl; tauto).
  reflexivity.
Qed.

(** X7.  The builder reads ten keys of a descriptor and nothing else:
    two inputs whose descriptors bind these keys alike give the same
    result, the same exception and the same log, whatever other keys
    they bind. *)
Theorem unread_fields_ignored (questions questions' : list pydict) (log : list string) :
  Forall2 same_read_fields questions questions' ->
  build questions log = build questions' log.
Proof.
  intros Hsame. unfold _build_question_requests.
  generalize 0. generalize (@nil pyval). revert log.
  induction Hsame as [| q q' rest rest' Hq _ IH]; intros log requests i;
    [reflexivity |].
  simpl. unfold bind. rewrite (loop_body_same_read_fields i q q' requests log Hq).
  destruct (loop_body py_repr i q' requests log) as [[requests' | e] log'];
    [apply IH | reflexivity].
Qed.



(** X9.  The flags of a date question are copied as the descriptor binds
    them, whatever values they are. *)
Theorem date_flags_copied
  (questions : list pydict) (log : list string) (i : nat) (q : pydict)
  (include_time include_year : pyval) :
  forallb descriptor_record questions = true ->
  nth_error questions i = Some q ->
  has_kind q DATE ->
  dict_lookup "include_time" q = Some include_time ->
  dict_lookup "include_year" q = Some include_year ->
  exists out request,
    build questions log = (Ok out, log ++ warnings_from py_repr questions) /\
    In request out /\
    location_index request = position i /\
    question_field request "dateQuestion"
    = Some (PyDict [("includeTime", include_time); ("includeYear", include_year)]).
Proof.
  intros Hall Hnth Hk Htime Hyear.
  destruct (built_request py_repr questions log i q DATE Hall Hnth Hk) as [Hrun Hin].
  exists (requests_from py_repr 0 questions),
    (request_literal i q (payload_key DATE) (payload_of py_repr DATE q)).
  repeat split; try assumption.
  unfold question_field. simpl.
  now rewrite (dict_get_present q "include_time" _ _ Htime),
    (dict_get_present q "include_year" _ _ Hyear).
Qed.

Lemma filter_nil_iff (f : pydict -> bool) (l : list pydict) :
  filter f l = [] <-> forall q, In q l -> f q = false.
Proof.
  induction l as [| q rest IH]; simpl.
  - split; [intros _ q [] | reflexivity].
  - destruct (f q) eqn:Hq; split.
    + discriminate.
    + intros H. specialize (H q (or_introl eq_refl)). congruence.
    + intros H q' [<- | Hin]; [assumption | now apply IH].
    + intros H. apply IH. intros q' Hin. apply H. now right.
Qed.

Lemma requests_from_nil_iff (questions : list pydict) :
  forallb descriptor_record questions = true ->
  requests_from py_repr 0 questions = []
  <-> forall q, In q questions -> recognized q = false.
Proof.
  intros Hall. rewrite <- filter_nil_iff.
  pose proof (requests_from_length py_repr questions Hall 0) as Hlen.
  split; intros H.
  - rewrite H in Hlen. simpl in Hlen.
    now destruct (filter recognized questions).
  - rewrite H in Hlen. simpl in Hlen.
    now destruct (requests_from py_repr 0 questions).
Qed.

(** X10.  The output is empty exactly when no descriptor of the input
    has a recognized kind, as for the empty input. *)
Theorem output_empty_iff_none_recognized (questions : list pydict) (log : list string) :
  forallb descriptor_record questions = true ->
  exists out,
    build questions log = (Ok out, log ++ warnings_from py_repr questions) /\
    (out = [] <-> forall q, In q questions -> recognized q = false).
Proof.
  intros Hall. exists (requests_from py_repr 0 questions).
  split; [now apply build_run | now apply requests_from_nil_iff].
Qed.

End BuilderBehaviour.

(** * The tools *)

Section ToolBehaviour.

Variable py_repr : pyval -> string.
Variable service : list api_call -> api_call -> api_reply.

Local Arguments String.append : simpl never.

Lemma info_fields (title : string) (description document_title : option string) :
  let info :=
    set_if_given "documentTitle" document_title
      (set_if_given "description" description [("title", PyStr title)]) in
  dict_lookup "title" info = Some (PyStr title) /\
  dict_lookup "description" info = given description /\
  dict_lookup "documentTitle" info = given document_title.
Proof.
  unfold set_if_given, given.
  destruct description as [d |], document_title as [t |]; simpl;
    try destruct (String.eqb d EmptyString); try destruct (String.eqb t EmptyString);
    simpl; repeat split; reflexivity.
Qed.

(** Running a tool: unfold the tool and the monad, then split on the
    innermost scrutinee that blocks the computation. *)
Ltac run_tool :=
  cbv beta iota zeta delta
    [create_form confirmation_message get_form set_publish_settings
     list_form_responses tbind tret lift_result log_message execute
     except_http lift_builder py_get py_get_default];
  cbn [logged calls fst snd].

Ltac split_run :=
  match goal with
  | |- context [match ?x with _ => _ end] =>
      lazymatch x with
      | context [match _ with _ => _ end] => fail
      | _ => destruct x eqn:?
      end
  end;
  cbv beta iota; cbn [logged calls fst snd].

(** The text of [confirmation_message] when the reply is a dict whose
    [info] is missing or a dict. *)
Lemma confirmation_message_run
  (created : pydict) (title user_google_email : string) (w : world) :
  is_dict (dict_get created "info" (PyDict [])) = true ->
  confirmation_message py_repr (PyDict created) title user_google_email
    (dict_get created "formId" PyNone)
    ("https://docs.google.com/forms/d/"
     ++ py_str py_repr (dict_get created "formId" PyNone) ++ "/edit")%string
    (dict_get created "responderUri"
       (PyStr ("https://docs.google.com/forms/d/"
               ++ py_str py_repr (dict_get created "formId" PyNone) ++ "/viewform")%string))
    w
  = (Done (created_text py_repr created title user_google_email), w).
Proof.
  intros Hinfo. unfold confirmation_message, created_text, tbind, lift_result, tret.
  simpl. destruct (dict_get created "info" (PyDict [])); try discriminate.
  reflexivity.
Qed.

(** X11.  Whatever the service does, the first thing [create_form] does
    with it is to create the form, with a body whose [info] holds the
    title, the description when one is given and not empty, and the
    document title when one is given and not empty; at most one more
    call follows. *)
Theorem create_form_creates_first
  (user_google_email title : string) (description document_title : option string)
  (questions : option (list pydict)) (w : world) :
  exists info rest,
    calls (snd (create_form py_repr service user_google_email title description
                  document_title questions w))
    = calls w ++ FormsCreate (PyDict [("info", PyDict info)]) :: rest /\
    dict_lookup "title" info = Some (PyStr title) /\
    dict_lookup "description" info = given description /\
    dict_lookup "documentTitle" info = given document_title /\
    List.length rest <= 1.
Proof.
  pose proof (info_fields title description document_title) as Hinfo.
  cbv zeta in Hinfo. destruct Hinfo as (Htitle & Hdescription & Hdocument).
  run_tool.
  repeat split_run;
    eexists _, _;
    (split; [try rewrite <- app_assoc; reflexivity |]);
    (split; [exact Htitle |]); (split; [exact Hdescription |]);
    (split; [exact Hdocument |]); simpl; lia.
Qed.

(** X12.  Without questions, that is with [None] or the empty list,
    [create_form] makes the one call that creates the form and never a
    batch update; when the service replies with a dict whose [info] is
    missing or a dict, it returns the confirmation text. *)
Theorem create_form_without_questions
  (user_google_email title : string) (description document_title : option string)
  (questions : option (list pydict)) (w : world) :
  questions = None \/ questions = Some [] ->
  calls (snd (create_form py_repr service user_google_email title description
                document_title questions w))
  = calls w ++ [FormsCreate (create_body title description document_title)] /\
  (forall created,
      service (calls w) (FormsCreate (create_body title description document_title))
      = Reply (PyDict created) ->
      is_dict (dict_get created "info" (PyDict [])) = true ->
      fst (create_form py_repr service user_google_email title description
             document_title questions w)
      = Done (created_text py_repr created title user_google_email)).
Proof.
  intros Hnone. unfold create_body. split.
  - destruct Hnone as [-> | ->]; run_tool; repeat split_run; reflexivity.
  - intros created Hreply Hinfo.
    destruct Hnone as [-> | ->]; run_tool; rewrite Hreply; cbv beta iota;
      unfold created_text, reply_field;
      destruct (dict_get created "info" (PyDict [])); try discriminate; reflexivity.
Qed.

(** X13.  With a non-empty list of descriptor records and a form the
    service has created, [create_form] makes exactly two calls: the
    creation, and one batch update for the created form's id whose
    [requests] are the builder's output, whatever the service answers to
    it.  The update is sent even when the builder kept no descriptor,
    with an empty list of requests. *)
Theorem create_form_sends_built_requests
  (user_google_email title : string) (description document_title : option string)
  (q : pydict) (rest : list pydict) (created : pydict) (w : world) :
  forallb descriptor_record (q :: rest) = true ->
  service (calls w) (FormsCreate (create_body title description document_title))
  = Reply (PyDict created) ->
  exists out,
    fst (_build_question_requests py_repr (q :: rest) []) = Ok out /\
    calls (snd (create_form py_repr service user_google_email title description
                  document_title (Some (q :: rest)) w))
    = calls w
      ++ [FormsCreate (create_body title description document_title);
          FormsBatchUpdate (dict_get created "formId" PyNone)
            (PyDict [("requests", PyList out)])] /\
    List.length out <= List.length (q :: rest) /\
    ((forall q', In q' (q :: rest) -> recognized q' = false) -> out = []).
Proof.
  intros Hall Hreply. exists (requests_from py_repr 0 (q :: rest)).
  split; [now rewrite (build_run py_repr (q :: rest) [] Hall) |].
  split; [| split].
  - unfold create_body in *. run_tool. rewrite Hreply. cbv beta iota.
    rewrite (build_run py_repr (q :: rest) _ Hall). cbv beta iota.
    repeat split_run; cbn [calls]; now rewrite <- app_assoc.
  - rewrite (requests_from_length py_repr (q :: rest) Hall 0). apply filter_length_le.
  - intros Hnone. now apply requests_from_nil_iff.
Qed.


(** X15.  The builder runs after the form has been created and outside
    the [try]: when a descriptor is no record, [create_form] raises the
    builder's exception with the form created and no question sent. *)
Theorem create_form_builder_error_after_creation
  (user_google_email title : string) (description document_title : option string)
  (before after : list pydict) (q : pydict) (created : pydict) (w : world) :
  forallb descriptor_record before = true ->
  descriptor_record q = false ->
  service (calls w) (FormsCreate (create_body title description document_title))
  = Reply (PyDict created) ->
  fst (create_form py_repr service user_google_email title description
         document_title (Some (before ++ q :: after)) w)
  = Fail (Builtin (ill_shape_error q)) /\
  calls (snd (create_form py_repr service user_google_email title description
                document_title (Some (before ++ q :: after)) w))
  = calls w ++ [FormsCreate (create_body title description document_title)].
Proof.
  intros Hbefore Hq Hreply.
  assert (Hrun : forall log,
             _build_question_requests py_repr (before ++ q :: after) log
             = (Raise (ill_shape_error q), log ++ warnings_from py_repr before))
    by (intros log; now apply build_raises_at).
  unfold create_body in *.
  destruct before as [| b before'].
  - change ([] ++ q :: after) with (q :: after) in *.
    run_tool. rewrite Hreply. cbv beta iota. rewrite Hrun. split; reflexivity.
  - change ((b :: before') ++ q :: after) with (b :: before' ++ q :: after) in *.
    run_tool. rewrite Hreply. cbv beta iota. rewrite Hrun. split; reflexivity.
Qed.

(** X16.  When the creation itself fails, [create_form] ends there: an
    [HttpError] of the creation is not caught, a reply that is no dict
    raises [AttributeError], and in each case the creation is the only
    call. *)
Theorem create_form_creation_failure
  (user_google_email title : string) (description document_title : option string)
  (questions : option (list pydict)) (w : world) :
  (forall created,
      service (calls w) (FormsCreate (create_body title description document_title))
      <> Reply (PyDict created)) ->
  fst (create_form py_repr service user_google_email title description
         document_title questions w)
  = Fail (match service (calls w)
                  (FormsCreate (create_body title description document_title)) with
          | Reply _ => Builtin AttributeError
          | HttpFailure message => HttpError message
          | OtherFailure name => OtherError name
          end) /\
  calls (snd (create_form py_repr service user_google_email title description
                document_title questions w))
  = calls w ++ [FormsCreate (create_body title description document_title)].
Proof.
  intros Hfail. unfold create_body in *. run_tool.
  destruct (service (calls w) _) as [created_form | message | name];
    try (split; reflexivity).
  destruct created_form; try (split; reflexivity).
  now elim (Hfail d).
Qed.

(** ** [get_form] *)

Lemma form_item_shape (item : pyval) :
  form_item item = true ->
  exists d question_item question,
    item = PyDict d /\
    dict_get d "questionItem" (PyDict []) = PyDict question_item /\
    dict_get question_item "question" (PyDict []) = PyDict question.
Proof.
  unfold form_item. destruct item as [| | | | | | d]; try discriminate.
  destruct (dict_lookup "questionItem" d) as [[| | | | | | question_item] |]
    eqn:Hlookup; try discriminate; intros Hitem.
  - rewrite (field_has_get question_item "question" is_dict (PyDict []) eq_refl)
      in Hitem.
    destruct (dict_get question_item "question" (PyDict [])) as [| | | | | | question]
      eqn:Hquestion; try discriminate.
    exists d, question_item, question. unfold dict_get at 1. now rewrite Hlookup.
  - exists d, [], []. unfold dict_get at 1. now rewrite Hlookup.
Qed.

Lemma summarize_items_run (items : list pyval) :
  forallb form_item items = true ->
  forall (i : nat) (questions_summary : list string) (w : world),
    summarize_items py_repr i items questions_summary w
    = (Done (questions_summary ++ question_lines py_repr i items), w).
Proof.
  induction items as [| item rest IH]; intros Hall i questions_summary w.
  - simpl. unfold tret. now rewrite app_nil_r.
  - cbn [forallb] in Hall. apply andb_true_iff in Hall. destruct Hall as [Hitem Hrest].
    destruct (form_item_shape item Hitem)
      as (d & question_item & question & -> & Hqi & Hqn).
    cbn [summarize_items question_lines].
    unfold question_line, item_required, reply_field.
    unfold tbind, lift_result, py_get_default.
    rewrite Hqi, Hqn, (IH Hrest). now rewrite <- app_assoc.
Qed.

Lemma summarize_items_pair (items : list pyval) :
  forall (i : nat) (questions_summary : list string) (w : world),
    summarize_items py_repr i items questions_summary w
    = (fst (summarize_items py_repr i items questions_summary w), w).
Proof.
  induction items as [| item rest IH]; intros i questions_summary w; [reflexivity |].
  cbn [summarize_items]. unfold tbind, lift_result.
  repeat match goal with
         | |- context [py_get_default ?x ?k ?d] =>
             destruct (py_get_default x k d); try reflexivity
         end.
  apply IH.
Qed.


(** X17.  For a form whose [info] is a dict and whose [items] are form
    items, [get_form] returns the details of the form: title and
    description with their defaults, the document title defaulting to
    the title, the two URLs, the number of items, and one line per item
    numbered from 1, with the item's title (or [Question i]) and
    [(Required)] when its question's [required] is true; without items
    the text says so. *)
Theorem get_form_text
  (user_google_email form_id : string) (form info : pydict) (items : list pyval)
  (w : world) :
  service (calls w) (FormsGet (PyStr form_id)) = Reply (PyDict form) ->
  dict_get form "info" (PyDict []) = PyDict info ->
  dict_get form "items" (PyList []) = PyList items ->
  forallb form_item items = true ->
  fst (get_form py_repr service user_google_email form_id w)
  = Done
      ("Form Details for " ++ user_google_email ++ ":" ++ newline
       ++ "- Title: " ++ dquote
       ++ py_str py_repr (dict_get info "title" (PyStr "No Title"))
       ++ dquote ++ newline
       ++ "- Description: " ++ dquote
       ++ py_str py_repr (dict_get info "description" (PyStr "No Description"))
       ++ dquote ++ newline
       ++ "- Document Title: " ++ dquote
       ++ py_str py_repr
            (dict_get info "documentTitle" (dict_get info "title" (PyStr "No Title")))
       ++ dquote ++ newline
       ++ "- Form ID: " ++ form_id ++ newline
       ++ "- Edit URL: " ++ ("https://docs.google.com/forms/d/" ++ form_id ++ "/edit")
       ++ newline
       ++ "- Responder URL: "
       ++ py_str py_repr
            (dict_get form "responderUri"
               (PyStr ("https://docs.google.com/forms/d/" ++ form_id ++ "/viewform")))
       ++ newline
       ++ "- Questions (" ++ nat_str (List.length items) ++ " total):" ++ newline
       ++ match items with
          | [] => "  No questions found"
          | _ :: _ => String.concat newline (question_lines py_repr 1 items)
          end)%string.
Proof.
  intros Hreply Hinfo Hitems Hall.
  run_tool. rewrite Hreply. cbv beta iota. rewrite Hinfo. cbv beta iota.
  rewrite Hitems. cbv beta iota delta [py_iter py_len].
  rewrite (summarize_items_run items Hall). cbv beta iota. cbn [app].
  now destruct items.
Qed.

(** X18.  [get_form] makes one call, the retrieval of the form, however
    the service replies and whatever the reply holds. *)
Theorem get_form_single_call (user_google_email form_id : string) (w : world) :
  calls (snd (get_form py_repr service user_google_email form_id w))
  = calls w ++ [FormsGet (PyStr form_id)].
Proof.
  run_tool.
  repeat (split_run;
          try match goal with
              | H : summarize_items _ _ _ _ ?w' = (_, ?w'') |- _ =>
                  rewrite summarize_items_pair in H;
                  injection H as ? ?; subst w''
              end);
    reflexivity.
Qed.


(** ** [set_publish_settings] *)

(** X20.  [set_publish_settings] makes one call, with a body of the two
    flags.  Its confirmation text reports the flags it was given, in
    Python's notation, not what the service replied; a failure of the
    call escapes. *)
Theorem set_publish_settings_outcome
  (user_google_email form_id : string)
  (publish_as_template require_authentication : bool) (w : world) :
  let body :=
    PyDict [("publishAsTemplate", PyBool publish_as_template);
            ("requireAuthentication", PyBool require_authentication)] in
  calls (snd (set_publish_settings py_repr service user_google_email form_id
                publish_as_template require_authentication w))
  = calls w ++ [FormsSetPublishSettings (PyStr form_id) body] /\
  fst (set_publish_settings py_repr service user_google_email form_id
         publish_as_template require_authentication w)
  = match service (calls w) (FormsSetPublishSettings (PyStr form_id) body) with
    | Reply _ =>
        Done ("Successfully updated publish settings for form " ++ form_id
              ++ " for " ++ user_google_email ++ ". Publish as template: "
              ++ (if publish_as_template then "True" else "False")
              ++ ", Require authentication: "
              ++ (if require_authentication then "True" else "False"))%string
    | HttpFailure message => Fail (HttpError message)
    | OtherFailure name => Fail (OtherError name)
    end.
Proof.
  cbv zeta. run_tool.
  destruct (service (calls w) _) as [reply | message | name];
    destruct publish_as_template, require_authentication; split; reflexivity.
Qed.

(** ** [list_form_responses] *)

Lemma form_response_shape (response : pyval) :
  form_response response = true ->
  exists d,
    response = PyDict d /\
    py_len (dict_get d "answers" (PyDict [])) = Ok (answers_count response).
Proof.
  unfold form_response. destruct response as [| | | | | | d]; try discriminate.
  rewrite (field_has_get d "answers" has_len (PyDict []) eq_refl).
  intros Hlen. exists d. split; [reflexivity |]. unfold answers_count.
  destruct (dict_get d "answers" (PyDict [])); try discriminate; reflexivity.
Qed.

Lemma detail_responses_run (responses : list pyval) :
  forallb form_response responses = true ->
  forall (i : nat) (response_details : list string) (w : world),
    detail_responses py_repr i responses response_details w
    = (Done (response_details ++ response_lines py_repr i responses), w).
Proof.
  induction responses as [| response rest IH]; intros Hall i response_details w.
  - simpl. unfold tret. now rewrite app_nil_r.
  - cbn [forallb] in Hall. apply andb_true_iff in Hall. destruct Hall as [Hr Hrest].
    destruct (form_response_shape response Hr) as (d & -> & Hlen).
    cbn [detail_responses response_lines].
    unfold response_line, reply_field.
    unfold tbind, lift_result, py_get_default.
    rewrite Hlen, (IH Hrest). now rewrite <- app_assoc.
Qed.

Lemma detail_responses_pair (responses : list pyval) :
  forall (i : nat) (response_details : list string) (w : world),
    detail_responses py_repr i responses response_details w
    = (fst (detail_responses py_repr i responses response_details w), w).
Proof.
  induction responses as [| response rest IH]; intros i response_details w;
    [reflexivity |].
  cbn [detail_responses]. unfold tbind, lift_result.
  repeat match goal with
         | |- context [py_get_default ?x ?k ?d] =>
             destruct (py_get_default x k d); try reflexivity
         end.
  match goal with
  | |- context [py_len ?x] => destruct (py_len x); try reflexivity
  end.
  apply IH.
Qed.

Lemma list_params_fields (form_id : string) (page_size : Z) (page_token : option string) :
  dict_lookup "formId" (list_params form_id page_size page_token) = Some (PyStr form_id) /\
  dict_lookup "pageSize" (list_params form_id page_size page_token)
  = Some (PyInt page_size) /\
  dict_lookup "pageToken" (list_params form_id page_size page_token) = given page_token.
Proof.
  unfold list_params, set_if_given, given.
  destruct page_token as [t |]; simpl; try destruct (String.eqb t EmptyString);
    simpl; repeat split; reflexivity.
Qed.

(** X21.  [list_form_responses] makes one call, whatever the service
    replies; its parameters are the form id, the page size, and the page
    token when one is given and not empty. *)
Theorem list_form_responses_single_call
  (user_google_email form_id : string) (page_size : Z) (page_token : option string)
  (w : world) :
  exists params,
    calls (snd (list_form_responses py_repr service user_google_email form_id
                  page_size page_token w))
    = calls w ++ [ResponsesList params] /\
    dict_lookup "formId" params = Some (PyStr form_id) /\
    dict_lookup "pageSize" params = Some (PyInt page_size) /\
    dict_lookup "pageToken" params = given page_token.
Proof.
  exists (list_params form_id page_size page_token).
  split; [| apply list_params_fields].
  unfold list_params. run_tool.
  repeat (split_run;
          try match goal with
              | H : detail_responses _ _ _ _ ?w' = (_, ?w'') |- _ =>
                  rewrite detail_responses_pair in H;
                  injection H as ? ?; subst w''
              end);
    reflexivity.
Qed.

(** X22.  When the reply has no responses ([responses] missing, empty or
    bound to another false value), [list_form_responses] returns the
    text that none were found and logs nothing more; a next page token
    in the reply is not reported. *)
Theorem list_form_responses_empty_page
  (user_google_email form_id : string) (page_size : Z) (page_token : option string)
  (page : pydict) (w : world) :
  service (calls w) (ResponsesList (list_params form_id page_size page_token))
  = Reply (PyDict page) ->
  py_truthy (dict_get page "responses" (PyList [])) = false ->
  list_form_responses py_repr service user_google_email form_id page_size page_token w
  = (Done ("No responses found for form " ++ form_id ++ " for "
           ++ user_google_email ++ ".")%string,
     World (logged w
            ++ [("[list_form_responses] Invoked. Email: '" ++ user_google_email
                 ++ "', Form ID: " ++ form_id)%string])
       (calls w ++ [ResponsesList (list_params form_id page_size page_token)])).
Proof.
  intros Hreply Hnone. unfold list_params in *. run_tool.
  rewrite Hreply. cbv beta iota. now rewrite Hnone.
Qed.

(** X23.  For a page of responses that are dicts whose [answers], when
    present, have a length, [list_form_responses] returns the number of
    responses, one line per response numbered from 1 with its id, times
    and number of answers (or [Unknown], and 0 answers), and then the
    next page token when the reply has a true one, else that there are
    no more pages. *)
Theorem list_form_responses_text
  (user_google_email form_id : string) (page_size : Z) (page_token : option string)
  (page : pydict) (response : pyval) (rest : list pyval) (w : world) :
  service (calls w) (ResponsesList (list_params form_id page_size page_token))
  = Reply (PyDict page) ->
  dict_get page "responses" (PyList []) = PyList (response :: rest) ->
  forallb form_response (response :: rest) = true ->
  fst (list_form_responses py_repr service user_google_email form_id page_size
         page_token w)
  = Done
      ("Form Responses for " ++ user_google_email ++ ":" ++ newline
       ++ "- Form ID: " ++ form_id ++ newline
       ++ "- Total responses returned: " ++ nat_str (List.length (response :: rest))
       ++ newline
       ++ "- Responses:" ++ newline
       ++ String.concat newline (response_lines py_repr 1 (response :: rest))
       ++ (if py_truthy (dict_get page "nextPageToken" PyNone)
           then newline ++ "Next page token: "
                ++ py_str py_repr (dict_get page "nextPageToken" PyNone)
           else newline ++ "No more pages."))%string.
Proof.
  intros Hreply Hresponses Hall. unfold list_params in *. run_tool.
  rewrite Hreply. cbv beta iota. rewrite Hresponses.
  cbv beta iota delta [py_truthy negb py_iter py_len].
  rewrite (detail_responses_run (response :: rest) Hall). cbv beta iota.
  reflexivity.
Qed.

End ToolBehaviour.

(** ** The further theorems on the samples *)

Lemma builder_stops_at_first_ill_shaped_witness :
  forallb descriptor_record [unknown_question; text_question] = true /\
  descriptor_record [("type", PyStr "CHECKBOX_QUESTION"); ("options", PyInt 3)] = false /\
  _build_question_requests plain_repr
    ([unknown_question; text_question]
     ++ [("type", PyStr "CHECKBOX_QUESTION"); ("options", PyInt 3)] :: [date_question]) []
  = (Raise TypeError,
     ["Unsupported question type: UNKNOWN_KIND. Skipping question: Skipped"]).
Proof.
  repeat (split; [reflexivity |]).
  exact (builder_stops_at_first_ill_shaped plain_repr
           [unknown_question; text_question] [date_question]
           [("type", PyStr "CHECKBOX_QUESTION"); ("options", PyInt 3)] []
           eq_refl eq_refl).
Defined.

Lemma warnings_in_input_order_witness :
  forallb descriptor_record mixed_questions = true /\
  snd (_build_question_requests plain_repr mixed_questions ["earlier"])
  = ["earlier"; "Unsupported question type: UNKNOWN_KIND. Skipping question: Skipped"].
Proof.
  split; [reflexivity |].
  exact (warnings_in_input_order plain_repr mixed_questions ["earlier"] eq_refl).
Defined.

Lemma builder_of_concatenation_witness :
  forallb descriptor_record [unknown_question; text_question] = true /\
  forallb descriptor_record [checkbox_question] = true /\
  exists out_a out_b,
    fst (_build_question_requests plain_repr [unknown_question; text_question] [])
    = Ok out_a /\
    fst (_build_question_requests plain_repr
           ([unknown_question; text_question] ++ [checkbox_question]) [])
    = Ok (out_a ++ out_b) /\
    forall request, In request out_b -> exists i, location_index request = position (2 + i).
Proof.
  repeat (split; [reflexivity |]).
  destruct (builder_of_concatenation plain_repr [unknown_question; text_question]
              [checkbox_question] [] eq_refl eq_refl)
    as (out_a & out_b & Ha & _ & Hab & Hpos).
  exists out_a, out_b. split; [exact Ha |]. split; [exact Hab |].
  intros request Hin. destruct (Hpos request Hin) as (i & Hi & _). now exists i.
Defined.

Lemma text_and_time_payloads_empty_witness :
  forallb descriptor_record [unknown_question; untitled_time_question] = true /\
  has_kind untitled_time_question TIME /\
  exists out request,
    fst (_build_question_requests plain_repr
           [unknown_question; untitled_time_question] []) = Ok out /\
    In request out /\
    question_field request "timeQuestion" = Some (PyDict []).
Proof.
  repeat (split; [reflexivity |]).
  destruct (text_and_time_payloads_empty plain_repr
              [unknown_question; untitled_time_question] [] 1 untitled_time_question
              TIME eq_refl eq_refl eq_refl (or_intror eq_refl))
    as (out & request & Hrun & Hin & _ & Hpayload).
  exists out, request. split; [now rewrite Hrun |].
  split; [exact Hin | exact Hpayload].
Defined.

Lemma one_payload_per_question_witness :
  forallb descriptor_record mixed_questions = true /\
  exists out,
    fst (_build_question_requests plain_repr mixed_questions []) = Ok out /\
    forall request,
      In request out ->
      exists question,
        py_path request ["createItem"; "item"; "questionItem"; "question"]
        = Some (PyDict question) /\
        List.length question = 2.
Proof.
  split; [reflexivity |].
  destruct (one_payload_per_question plain_repr mixed_questions [] eq_refl)
    as (out & Hrun & Hshape).
  exists out. split; [now rewrite Hrun |].
  intros request Hin.
  destruct (Hshape request Hin) as (i & q & k & payload & _ & _ & Hquestion & _).
  eexists. split; [exact Hquestion | reflexivity].
Defined.

Lemma options_are_iterated_witness :
  forallb descriptor_record
    [[("type", PyStr "MULTIPLE_CHOICE_QUESTION"); ("options", PyStr "ab")]] = true /\
  exists out request,
    fst (_build_question_requests plain_repr
           [[("type", PyStr "MULTIPLE_CHOICE_QUESTION"); ("options", PyStr "ab")]] [])
    = Ok out /\
    In request out /\
    question_field request "choiceQuestion"
    = Some (PyDict [("type", PyStr "RADIO");
                    ("options",
                      PyList [option_entry (PyStr "a"); option_entry (PyStr "b")])]).
Proof.
  split; [reflexivity |].
  destruct (options_are_iterated plain_repr
              [[("type", PyStr "MULTIPLE_CHOICE_QUESTION"); ("options", PyStr "ab")]]
              [] 0
              [("type", PyStr "MULTIPLE_CHOICE_QUESTION"); ("options", PyStr "ab")]
              MULTIPLE_CHOICE "RADIO" (PyStr "ab") [PyStr "a"; PyStr "b"]
              eq_refl eq_refl eq_refl eq_refl eq_refl eq_refl)
    as (out & request & Hrun & Hin & _ & Hpayload & _).
  exists out, request. split; [now rewrite Hrun |].
  split; [exact Hin | exact Hpayload].
Defined.

Lemma sample_same_read_fields :
  Forall2 same_read_fields
    [text_question]
    [("colour", PyStr "red") :: text_question ++ [("points", PyInt 3)]].
Proof.
  constructor; [| constructor].
  intros k Hk. simpl in Hk.
  repeat (destruct Hk as [<- | Hk]; [reflexivity |]). destruct Hk.
Qed.

Lemma unread_fields_ignored_witness :
  Forall2 same_read_fields
    [text_question]
    [("colour", PyStr "red") :: text_question ++ [("points", PyInt 3)]] /\
  _build_question_requests plain_repr [text_question] []
  = _build_question_requests plain_repr
      [("colour", PyStr "red") :: text_question ++ [("points", PyInt 3)]] [].
Proof.
  split; [exact sample_same_read_fields |].
  exact (unread_fields_ignored plain_repr _ _ [] sample_same_read_fields).
Defined.


Lemma date_flags_copied_witness :
  forallb descriptor_record
    [[("type", PyStr "DATE_QUESTION"); ("include_time", PyStr "yes");
      ("include_year", PyNone)]] = true /\
  exists out request,
    fst (_build_question_requests plain_repr
           [[("type", PyStr "DATE_QUESTION"); ("include_time", PyStr "yes");
             ("include_year", PyNone)]] []) = Ok out /\
    In request out /\
    question_field request "dateQuestion"
    = Some (PyDict [("includeTime", PyStr "yes"); ("includeYear", PyNone)]).
Proof.
  split; [reflexivity |].
  destruct (date_flags_copied plain_repr
              [[("type", PyStr "DATE_QUESTION"); ("include_time", PyStr "yes");
                ("include_year", PyNone)]] [] 0
              [("type", PyStr "DATE_QUESTION"); ("include_time", PyStr "yes");
               ("include_year", PyNone)]
              (PyStr "yes") PyNone eq_refl eq_refl eq_refl eq_refl eq_refl)
    as (out & request & Hrun & Hin & _ & Hpayload).
  exists out, request. split; [now rewrite Hrun |].
  split; [exact Hin | exact Hpayload].
Defined.

Lemma output_empty_iff_none_recognized_witness :
  forallb descriptor_record [unknown_question; unknown_question] = true /\
  fst (_build_question_requests plain_repr [unknown_question; unknown_question] [])
  = Ok [].
Proof.
  split; [reflexivity |].
  destruct (output_empty_iff_none_recognized plain_repr
              [unknown_question; unknown_question] [] eq_refl)
    as (out & Hrun & Hempty).
  rewrite Hrun. simpl. f_equal. apply Hempty.
  intros q [<- | [<- | []]]; reflexivity.
Defined.

Lemma create_form_without_questions_witness :
  fst (create_form plain_repr (constant_service (Reply (PyDict created_reply)))
         "me@example.org" "Lunch" (Some "Weekly") None (Some []) fresh_world)
  = Done "Successfully created form 'Lunch' for me@example.org. Form ID: f1. Edit URL: https://docs.google.com/forms/d/f1/edit. Responder URL: https://forms.example/f1" /\
  calls (snd (create_form plain_repr (constant_service (Reply (PyDict created_reply)))
                "me@example.org" "Lunch" (Some "Weekly") None (Some []) fresh_world))
  = [FormsCreate
       (PyDict [("info", PyDict [("title", PyStr "Lunch");
                                 ("description", PyStr "Weekly")])])].
Proof.
  destruct (create_form_without_questions plain_repr
              (constant_service (Reply (PyDict created_reply)))
              "me@example.org" "Lunch" (Some "Weekly") None (Some []) fresh_world
              (or_intror eq_refl))
    as [Hcalls Htext].
  split; [exact (Htext created_reply eq_refl eq_refl) | exact Hcalls].
Defined.

Lemma create_form_sends_built_requests_witness :
  forallb descriptor_record [unknown_question] = true /\
  calls (snd (create_form plain_repr rejecting_service "me@example.org" "Lunch"
                None None (Some [unknown_question]) fresh_world))
  = [FormsCreate (PyDict [("info", PyDict [("title", PyStr "Lunch")])]);
     FormsBatchUpdate (PyStr "f1") (PyDict [("requests", PyList [])])].
Proof.
  split; [reflexivity |].
  destruct (create_form_sends_built_requests plain_repr rejecting_service
              "me@example.org" "Lunch" None None unknown_question [] created_reply
              fresh_world eq_refl eq_refl)
    as (out & Hout & Hcalls & _ & Hempty).
  rewrite Hcalls. rewrite Hempty; [reflexivity |].
  intros q [<- | []]. reflexivity.
Defined.


Lemma create_form_builder_error_after_creation_witness :
  forallb descriptor_record [text_question] = true /\
  descriptor_record [("type", PyStr "SCALE_QUESTION"); ("scale_labels", PyNone)] = false /\
  fst (create_form plain_repr rejecting_service "me@example.org" "Lunch" None None
         (Some ([text_question]
                ++ [("type", PyStr "SCALE_QUESTION"); ("scale_labels", PyNone)] :: []))
         fresh_world)
  = Fail (Builtin AttributeError) /\
  calls (snd (create_form plain_repr rejecting_service "me@example.org" "Lunch"
                None None
                (Some ([text_question]
                       ++ [("type", PyStr "SCALE_QUESTION"); ("scale_labels", PyNone)]
                          :: []))
                fresh_world))
  = [FormsCreate (PyDict [("info", PyDict [("title", PyStr "Lunch")])])].
Proof.
  split; [reflexivity |]. split; [reflexivity |].
  exact (create_form_builder_error_after_creation plain_repr rejecting_service
           "me@example.org" "Lunch" None None [text_question] []
           [("type", PyStr "SCALE_QUESTION"); ("scale_labels", PyNone)]
           created_reply fresh_world eq_refl eq_refl eq_refl).
Defined.

Lemma create_form_creation_failure_witness :
  fst (create_form plain_repr (constant_service (HttpFailure "<HttpError 403>"))
         "me@example.org" "Lunch" None None (Some mixed_questions) fresh_world)
  = Fail (HttpError "<HttpError 403>") /\
  calls (snd (create_form plain_repr (constant_service (HttpFailure "<HttpError 403>"))
                "me@example.org" "Lunch" None None (Some mixed_questions) fresh_world))
  = [FormsCreate (PyDict [("info", PyDict [("title", PyStr "Lunch")])])].
Proof.
  exact (create_form_creation_failure plain_repr
           (constant_service (HttpFailure "<HttpError 403>"))
           "me@example.org" "Lunch" None None (Some mixed_questions) fresh_world
           (fun created H => ltac:(discriminate H))).
Defined.

Lemma get_form_text_witness :
  forallb form_item
    [PyDict [("title", PyStr "Name");
             ("questionItem",
               PyDict [("question", PyDict [("required", PyBool true)])])];
     PyDict [("questionItem", PyDict [])]] = true /\
  fst (get_form plain_repr (constant_service (Reply (PyDict form_reply)))
         "me@example.org" "f1" fresh_world)
  = Done
      ("Form Details for me@example.org:" ++ newline
       ++ "- Title: " ++ dquote ++ "Lunch" ++ dquote ++ newline
       ++ "- Description: " ++ dquote ++ "No Description" ++ dquote ++ newline
       ++ "- Document Title: " ++ dquote ++ "Lunch" ++ dquote ++ newline
       ++ "- Form ID: f1" ++ newline
       ++ "- Edit URL: https://docs.google.com/forms/d/f1/edit" ++ newline
       ++ "- Responder URL: https://docs.google.com/forms/d/f1/viewform" ++ newline
       ++ "- Questions (2 total):" ++ newline
       ++ "  1. Name (Required)" ++ newline
       ++ "  2. Question 2")%string.
Proof.
  split; [reflexivity |].
  exact (get_form_text plain_repr (constant_service (Reply (PyDict form_reply)))
           "me@example.org" "f1" form_reply [("title", PyStr "Lunch")] _ fresh_world
           eq_refl eq_refl eq_refl eq_refl).
Defined.


Lemma list_form_responses_empty_page_witness :
  py_truthy (dict_get empty_page_reply "responses" (PyList [])) = false /\
  fst (list_form_responses plain_repr
         (constant_service (Reply (PyDict empty_page_reply)))
         "me@example.org" "f1" 10 None fresh_world)
  = Done "No responses found for form f1 for me@example.org.".
Proof.
  split; [reflexivity |].
  exact (f_equal fst
           (list_form_responses_empty_page plain_repr
              (constant_service (Reply (PyDict empty_page_reply)))
              "me@example.org" "f1" 10 None empty_page_reply fresh_world
              eq_refl eq_refl)).
Defined.

Lemma list_form_responses_text_witness :
  forallb form_response
    [PyDict [("responseId", PyStr "r1");
             ("answers", PyDict [("q1", PyDict []); ("q2", PyDict [])])];
     PyDict [("createTime", PyStr "2024-01-01")]] = true /\
  fst (list_form_responses plain_repr (constant_service (Reply (PyDict page_reply)))
         "me@example.org" "f1" 10 (Some "t1") fresh_world)
  = Done
      ("Form Responses for me@example.org:" ++ newline
       ++ "- Form ID: f1" ++ newline
       ++ "- Total responses returned: 2" ++ newline
       ++ "- Responses:" ++ newline
       ++ "  1. Response ID: r1 | Created: Unknown | Last Submitted: Unknown | Answers: 2"
       ++ newline
       ++ "  2. Response ID: Unknown | Created: 2024-01-01 | Last Submitted: Unknown | Answers: 0"
       ++ newline ++ "Next page token: t2")%string.
Proof.
  split; [reflexivity |].
  exact (list_form_responses_text plain_repr
           (constant_service (Reply (PyDict page_reply)))
           "me@example.org" "f1" 10 (Some "t1") page_reply _ _ fresh_world
           eq_refl eq_refl eq_refl).
Defined.
